(** * PVMountingTool: load computation and section selection

    A shallow embedding of the calculation pipeline of [pv_calculator.py]:
    the reference tables, the three load calculators, the load combiner,
    the column section selector and the steel usage estimator.

    Modelling conventions.
    - A Python [float] is a real number ([R]); rounding is not modelled.
      Python [int] values are integers ([Z]) and are injected with [IZR]
      where the source mixes them with floats.
    - A Python [dict] literal is an association list in insertion order,
      which is also the order [dict.items()] and [dict.keys()] iterate in.
    - A Python [list] is a Rocq [list]; indexing past the end raises
      [IndexError].
    - The [params] dict, which [get_user_input] always builds with the same
      eleven keys, is a record.
    - Exceptions are values of [exn] carried by the [result] monad; every
      [try: ... except Exception: return d] is [try_except body d].
    - The interactive functions [get_valid_input], [get_user_input] and
      [main] read the typed answers from a list; [float], [int] and
      [str.lower] are parameters of their models; printing is left out. *)

From Stdlib Require Import Reals Lra Lia ZArith List String Bool.
Import ListNotations.
Open Scope R_scope.

(** ** Exceptions *)

Inductive exn : Type :=
| ZeroDivisionError
| IndexError
| KeyError
| ValueError.

Inductive result (A : Type) : Type :=
| Ok (a : A)
| Raise (e : exn).

Arguments Ok {A} a.
Arguments Raise {A} e.

Definition bind {A B : Type} (m : result A) (k : A -> result B) : result B :=
  match m with
  | Ok a => k a
  | Raise e => Raise e
  end.

Notation "x <- m ;; k" := (bind m (fun x => k))
  (at level 61, m at next level, right associativity).

(** [try: body  except Exception: return d] *)
Definition try_except {A : Type} (body : result A) (d : A) : A :=
  match body with
  | Ok a => a
  | Raise _ => d
  end.

(** ** Python primitives *)

(** [xs[i]] for a non-negative literal index. *)
Definition index {A : Type} (xs : list A) (i : nat) : result A :=
  match nth_error xs i with
  | Some x => Ok x
  | None => Raise IndexError
  end.

(** [d[k]] on a string-keyed dict. *)
Fixpoint dict_lookup {V : Type} (d : list (string * V)) (k : string) : option V :=
  match d with
  | [] => None
  | (k', v) :: rest => if String.eqb k' k then Some v else dict_lookup rest k
  end.

Definition getitem {V : Type} (d : list (string * V)) (k : string) : result V :=
  match dict_lookup d k with
  | Some v => Ok v
  | None => Raise KeyError
  end.

(** [d.get(k, dflt)] *)
Definition dict_get {V : Type} (d : list (string * V)) (k : string) (dflt : V) : V :=
  match dict_lookup d k with
  | Some v => v
  | None => dflt
  end.

Definition keys {V : Type} (d : list (string * V)) : list string := map fst d.

(** [x / y] on floats. *)
Definition fdiv (x y : R) : result R :=
  if Req_dec_T y 0 then Raise ZeroDivisionError else Ok (x / y).

(** [math.ceil]: the least integer not below [x]. *)
Definition ceil (x : R) : Z := (1 - up (- x))%Z.

(** [math.radians] *)
Definition radians (deg : R) : R := deg * (PI / 180).

(** The three-argument [max(a, b, c)]: the first maximal argument. *)
Definition max3 (a b c : R) : R :=
  let m := a in
  let m := if Rgt_dec b m then b else m in
  if Rgt_dec c m then c else m.

(** [max(iterable, key=f)]: the first item whose key is maximal;
    [ValueError] on an empty iterable; an exception of [f] propagates. *)
Fixpoint max_by_key_from {A : Type} (f : A -> result R) (best : A) (kbest : R)
    (xs : list A) : result A :=
  match xs with
  | [] => Ok best
  | x :: rest =>
      kx <- f x ;;
      if Rgt_dec kx kbest then max_by_key_from f x kx rest
      else max_by_key_from f best kbest rest
  end.

Definition max_by_key {A : Type} (f : A -> result R) (xs : list A) : result A :=
  match xs with
  | [] => Raise ValueError
  | x :: rest => kx <- f x ;; max_by_key_from f x kx rest
  end.

(** ** Reference data *)

Definition STEEL_DENSITY : R := 7850.
Definition STEEL_YIELD_STRENGTH : R := 235.
Definition SAFETY_FACTOR : R := 1.5.

Definition WIND_SHAPE_COEFF : list (string * R) :=
  [ ("单坡"%string, 1.3);
    ("双坡"%string, 0.9);
    ("平顶"%string, 1.0) ].

Record city_load : Type := mk_city_load { wind : R; snow : R }.

Definition CITY_LOAD_DATA : list (string * city_load) :=
  [ ("北京"%string, mk_city_load 0.45 0.40);
    ("上海"%string, mk_city_load 0.55 0.20);
    ("广州"%string, mk_city_load 0.50 0.00);
    ("哈尔滨"%string, mk_city_load 0.55 0.45);
    ("乌鲁木齐"%string, mk_city_load 0.60 0.80);
    ("拉萨"%string, mk_city_load 0.30 0.15);
    ("默认"%string, mk_city_load 0.40 0.35) ].

(** C sections carry six properties (height, width, lip, thickness, area,
    inertia); square tubes carry four (side, thickness, area, inertia). *)
Definition STEEL_SECTIONS : list (string * list R) :=
  [ ("C80x40x15x2.0"%string, [80; 40; 15; 2.0; 4.24; 43.92]);
    ("C100x50x20x2.5"%string, [100; 50; 20; 2.5; 6.78; 112.12]);
    ("C120x50x20x2.5"%string, [120; 50; 20; 2.5; 7.18; 198.60]);
    ("C140x50x20x3.0"%string, [140; 50; 20; 3.0; 8.64; 322.55]);
    ("□60x60x2.5"%string, [60; 2.5; 5.67; 34.45]);
    ("□80x80x3.0"%string, [80; 3.0; 8.76; 73.49]);
    ("□100x100x3.5"%string, [100; 3.5; 13.20; 178.08]);
    ("□120x120x4.0"%string, [120; 4.0; 18.18; 346.36]) ].

(** ** The parameter record built by [get_user_input] *)

Record params : Type := mk_params {
  location : string;
  roof_type : string;
  tilt_angle : R;
  mounting_height : R;
  pv_length : R;
  pv_width : R;
  pv_weight : R;
  pv_per_row : Z;
  num_rows : Z;
  column_spacing : R;
  span_length : R
}.

(** ** Load calculators *)

(** The height band of [calculate_wind_load]. *)
Definition wind_mu_z (height : R) : R :=
  if Rle_dec height 5 then 1.0
  else if Rle_dec height 10 then 1.0
  else if Rle_dec height 15 then 1.14
  else 1.25.

Definition calculate_wind_load_body (p : params) : result R :=
  dflt <- getitem CITY_LOAD_DATA "默认"%string ;;
  let city_data := dict_get CITY_LOAD_DATA (location p) dflt in
  let W0 := wind city_data in
  let height := mounting_height p in
  let mu_z := wind_mu_z height in
  let mu_s := dict_get WIND_SHAPE_COEFF (roof_type p) 1.0 in
  let projected_area :=
    sin (radians (tilt_angle p)) * pv_length p * pv_width p in
  let wind_load :=
    1.0 * mu_s * mu_z * W0 * projected_area
    * IZR (pv_per_row p) * IZR (num_rows p) in
  Ok (Rabs wind_load).

Definition calculate_wind_load (p : params) : R :=
  try_except (calculate_wind_load_body p) 0.

(** The tilt band of [calculate_snow_load]. *)
Definition snow_mu_r (tilt : R) : R :=
  if Rle_dec tilt 25 then 1.0
  else if Rle_dec tilt 50 then 1.0 - (tilt - 25) / 25
  else 0.

Definition calculate_snow_load_body (p : params) : result R :=
  dflt <- getitem CITY_LOAD_DATA "默认"%string ;;
  let city_data := dict_get CITY_LOAD_DATA (location p) dflt in
  let S0 := snow city_data in
  let tilt := tilt_angle p in
  let mu_r := snow_mu_r tilt in
  let area := pv_length p * pv_width p * cos (radians tilt) in
  let snow_load := mu_r * S0 * area * IZR (pv_per_row p) * IZR (num_rows p) in
  Ok snow_load.

Definition calculate_snow_load (p : params) : R :=
  try_except (calculate_snow_load_body p) 0.

Definition calculate_dead_load_body (p : params) : result R :=
  let pv_total_weight := pv_weight p * IZR (pv_per_row p) * IZR (num_rows p) in
  let support_weight_factor := 0.3 in
  let support_weight := pv_total_weight * support_weight_factor in
  let dead_load := (pv_total_weight + support_weight) * 0.0098 in
  Ok dead_load.

Definition calculate_dead_load (p : params) : R :=
  try_except (calculate_dead_load_body p) 0.

(** ** Load combiner *)

Record combined : Type := mk_combined {
  design_load : R;
  combo1 : R;
  combo2 : R;
  combo3 : R
}.

Definition calculate_combined_load_body (dead_load wind_load snow_load : R)
    : result combined :=
  let c1 := 1.2 * dead_load + 1.4 * wind_load in
  let c2 := 1.2 * dead_load + 1.4 * snow_load in
  let c3 := 1.2 * dead_load + 0.9 * 1.4 * (wind_load + snow_load) in
  let dl := max3 c1 c2 c3 in
  Ok (mk_combined dl c1 c2 c3).

Definition calculate_combined_load (dead_load wind_load snow_load : R) : combined :=
  try_except (calculate_combined_load_body dead_load wind_load snow_load)
             (mk_combined 0 0 0 0).

(** ** Section selector *)

(** The [for section, props in STEEL_SECTIONS.items()] loop with its
    [break]: the value of [selected_section] when the loop ends. *)
Fixpoint scan_sections (items : list (string * list R)) (required_area_cm2 : R)
    : result (option string) :=
  match items with
  | [] => Ok None
  | (section, props) :: rest =>
      section_area <- index props 4 ;;
      if Rge_dec section_area required_area_cm2 then Ok (Some section)
      else scan_sections rest required_area_cm2
  end.

(** [lambda k: STEEL_SECTIONS[k][4]] *)
Definition area_key (k : string) : result R :=
  props <- getitem STEEL_SECTIONS k ;; index props 4.

(** The required area in cm2, as computed before the scan. *)
Definition required_area_cm2 (design_load : R) (p : params) : result R :=
  q <- fdiv (span_length p) (column_spacing p) ;;
  let columns_per_row := ceil q in
  let total_columns := (columns_per_row * num_rows p)%Z in
  let total_columns := if (total_columns =? 0)%Z then 1%Z else total_columns in
  column_load <- fdiv design_load (IZR total_columns) ;;
  let axial_force := column_load * 1000 in
  let required_area := axial_force / (STEEL_YIELD_STRENGTH / SAFETY_FACTOR) in
  Ok (required_area / 100).

(** [if not selected_section] holds for [None] and for the empty string. *)
Definition select_column_section_body (design_load : R) (p : params)
    : result string :=
  req <- required_area_cm2 design_load p ;;
  selected_section <- scan_sections STEEL_SECTIONS req ;;
  match selected_section with
  | Some (String c s) => Ok (String c s)
  | Some EmptyString | None => max_by_key area_key (keys STEEL_SECTIONS)
  end.

Definition select_column_section (design_load : R) (p : params) : string :=
  try_except (select_column_section_body design_load p) "□100x100x3.5"%string.

(** ** Steel usage *)

Record steel_usage : Type := mk_steel_usage {
  total_steel : R;
  column_weight : R;
  beam_weight : R;
  connection_weight : R
}.

Definition calculate_steel_usage_body (p : params) (column_section : string)
    : result steel_usage :=
  q <- fdiv (span_length p) (column_spacing p) ;;
  let columns_per_row := ceil q in
  let total_columns := (columns_per_row * num_rows p)%Z in
  section_props <- getitem STEEL_SECTIONS column_section ;;
  section_area_cm2 <- index section_props 4 ;;
  let section_area_m2 := section_area_cm2 / 10000 in
  let column_length := mounting_height p * 1.2 in
  let cw := section_area_m2 * column_length * STEEL_DENSITY * IZR total_columns in
  let bw := cw * 0.6 in
  let conn := (cw + bw) * 0.15 in
  let total := cw + bw + conn in
  Ok (mk_steel_usage total cw bw conn).

Definition calculate_steel_usage (p : params) (column_section : string)
    : steel_usage :=
  try_except (calculate_steel_usage_body p column_section)
             (mk_steel_usage 0 0 0 0).

(** ** The calculation part of one [main] iteration *)

Record result_record : Type := mk_result_record {
  r_wind_load : R;
  r_snow_load : R;
  r_dead_load : R;
  r_combined : combined;
  r_column_section : string;
  r_steel : steel_usage
}.

Definition main_calculation (p : params) : result_record :=
  let wind_load := calculate_wind_load p in
  let snow_load := calculate_snow_load p in
  let dead_load := calculate_dead_load p in
  let c := calculate_combined_load dead_load wind_load snow_load in
  let column_section := select_column_section (design_load c) p in
  let s := calculate_steel_usage p column_section in
  mk_result_record wind_load snow_load dead_load c column_section s.

(** The defaults offered by [get_user_input]. *)
Definition default_params : params :=
  mk_params "默认"%string "平顶"%string 30.0 3.0 1.7 1.0 20.0 10 20 2.5 10.0.

(** ** Notions used in the statements *)

(** What the scan yields for a required area [r]: the four C sections are
    tried in order; reading index 4 of the first square tube raises. *)
Definition scan_outcome (r : R) : result (option string) :=
  if Rge_dec 4.24 r then Ok (Some "C80x40x15x2.0"%string)
  else if Rge_dec 6.78 r then Ok (Some "C100x50x20x2.5"%string)
  else if Rge_dec 7.18 r then Ok (Some "C120x50x20x2.5"%string)
  else if Rge_dec 8.64 r then Ok (Some "C140x50x20x3.0"%string)
  else Raise IndexError.

(** The section returned for a required area [r]. *)
Definition selection_for (r : R) : string :=
  if Rge_dec 4.24 r then "C80x40x15x2.0"
  else if Rge_dec 6.78 r then "C100x50x20x2.5"
  else if Rge_dec 7.18 r then "C120x50x20x2.5"
  else if Rge_dec 8.64 r then "C140x50x20x3.0"
  else "□100x100x3.5".

(** The sections [select_column_section] can return. *)
Definition returned_sections : list string :=
  [ "C80x40x15x2.0"; "C100x50x20x2.5"; "C120x50x20x2.5"; "C140x50x20x3.0";
    "□100x100x3.5" ]%string.

(** The column count of [select_column_section] before its zero guard. *)
Definition total_columns (p : params) : Z :=
  (ceil (span_length p / column_spacing p) * num_rows p)%Z.

(** Consecutive entries of a list, in iteration order. *)
Fixpoint consecutive {A : Type} (xs : list A) : list (A * A) :=
  match xs with
  | a :: (b :: _) as rest => (a, b) :: consecutive rest
  | _ => []
  end.

(** [cat] is ascending for the area accessor [area]: on every consecutive
    pair both areas can be read and the earlier is at most the later. *)
Definition ascending_by (area : list R -> result R)
    (cat : list (string * list R)) : Prop :=
  forall e1 e2, In (e1, e2) (consecutive cat) ->
    exists a1 a2, area (snd e1) = Ok a1 /\ area (snd e2) = Ok a2 /\ a1 <= a2.

(** The area as the selector and the estimator read it. *)
Definition area_index4 (props : list R) : result R := index props 4.

(** The area where the catalog's comments place it for square tubes. *)
Definition area_index2 (props : list R) : result R := index props 2.

(** The area where the catalog's comments place it: index 4 of a C section
    (six properties), index 2 of a square tube (four properties). *)
Definition documented_area (props : list R) : result R :=
  match List.length props with
  | 6%nat => index props 4
  | 4%nat => index props 2
  | _ => Raise IndexError
  end.

Definition c_sections : list (string * list R) := firstn 4 STEEL_SECTIONS.

Definition square_tubes : list (string * list R) := skipn 4 STEEL_SECTIONS.

(** [x] is within 1 percent of the stated figure [v]. *)
Definition within_1pct (x v : R) : Prop := Rabs (x - v) <= 0.01 * v.

(** An array every field of which passes the input validation: 3.0 m by
    2.0 m panels of 50 kg, [per_row] panels in each of 1000 rows, one
    column per row (span 1.0 m, spacing 10.0 m). *)
Definition array_params (per_row : Z) : params :=
  mk_params "默认" "平顶" 30.0 3.0 3.0 2.0 50.0 per_row 1000 10.0 1.0.


(** ** Interactive input *)

(** The answers typed at the prompts, each as [input(...).strip()] yields
    it, are threaded through the input functions as a list.  An [input]
    call on an exhausted list raises [EOFError], which none of the input
    functions handles; what they print is not modelled. *)
Inductive outcome (A : Type) : Type :=
| Done (a : A) (rest : list string)
| Fault (e : exn) (rest : list string)
| Eof.

Arguments Done {A} a rest.
Arguments Fault {A} e rest.
Arguments Eof {A}.

Definition io (A : Type) : Type := list string -> outcome A.

Definition io_ret {A : Type} (a : A) : io A := fun inp => Done a inp.

Definition io_bind {A B : Type} (m : io A) (k : A -> io B) : io B :=
  fun inp =>
    match m inp with
    | Done a rest => k a rest
    | Fault e rest => Fault e rest
    | Eof => Eof
    end.

Notation "x <~ m ;; k" := (io_bind m (fun x => k))
  (at level 61, m at next level, right associativity).

(** [s or d] on strings: the empty string is falsy. *)
Definition or_else (s d : string) : string :=
  if String.eqb s "" then d else s.

(** [k in d] *)
Definition contains {V : Type} (d : list (string * V)) (k : string) : bool :=
  match dict_lookup d k with
  | Some _ => true
  | None => false
  end.

(** [x < y] on floats; on ints it is [Z.ltb]. *)
Definition Rltb (x y : R) : bool := if Rlt_dec x y then true else false.

Section GetValidInput.
Context {V : Type}.
(** [input_type(user_input)] and [<] on its values; [a > b] is [b < a]. *)
Variable input_type : string -> result V.
Variable lt : V -> V -> bool.
Variables min_val max_val default : option V.

(** The body of the [try] after the answer is read. *)
Definition validate (user_input : string) : result V :=
  if String.eqb user_input "" then
    match default with
    | Some d => Ok d
    | None => Raise ValueError
    end
  else
    value <- input_type user_input ;;
    if match min_val with Some m => lt value m | None => false end
    then Raise ValueError
    else if match max_val with Some m => lt m value | None => false end
    then Raise ValueError
    else Ok value.

(** The [while attempts < max_attempts] loop and what follows it, with
    [remaining = max_attempts - attempts]; only [ValueError] is caught. *)
Fixpoint attempts_loop (remaining : nat) (inp : list string) : outcome V :=
  match remaining with
  | O =>
      match default with
      | Some d => Done d inp
      | None => Fault ValueError inp
      end
  | S k =>
      match inp with
      | [] => Eof
      | user_input :: rest =>
          match validate user_input with
          | Ok value => Done value rest
          | Raise ValueError => attempts_loop k rest
          | Raise e => Fault e rest
          end
      end
  end.

Definition get_valid_input (max_attempts : nat) : io V :=
  attempts_loop max_attempts.

(** An answer that passes: not empty, converted, and within both bounds. *)
Definition accepted (answer : string) (v : V) : Prop :=
  answer <> ""%string /\ input_type answer = Ok v /\
  (forall m, min_val = Some m -> lt v m = false) /\
  (forall m, max_val = Some m -> lt m v = false).
End GetValidInput.

Section UserInput.
(** [float(s)] and [int(s)] on a stripped answer. *)
Variable float : string -> result R.
Variable int : string -> result Z.

Definition read_location : io string :=
  fun inp =>
    match inp with
    | [] => Eof
    | answer :: rest =>
        let location := or_else answer "默认" in
        let location :=
          if negb (contains CITY_LOAD_DATA location) then "默认"%string
          else location in
        Done location rest
    end.

(** The [while True] loop around the roof type prompt. *)
Fixpoint read_roof_type (inp : list string) : outcome string :=
  match inp with
  | [] => Eof
  | answer :: rest =>
      let roof_type := or_else answer "平顶" in
      if contains WIND_SHAPE_COEFF roof_type then Done roof_type rest
      else read_roof_type rest
  end.

Definition get_user_input : io params :=
  location <~ read_location ;;
  roof_type <~ read_roof_type ;;
  tilt_angle <~ get_valid_input float Rltb (Some 0) (Some 90) (Some 30.0) 3 ;;
  mounting_height <~
    get_valid_input float Rltb (Some 0.1) (Some 50) (Some 3.0) 3 ;;
  pv_length <~ get_valid_input float Rltb (Some 0.5) (Some 3.0) (Some 1.7) 3 ;;
  pv_width <~ get_valid_input float Rltb (Some 0.5) (Some 2.0) (Some 1.0) 3 ;;
  pv_weight <~ get_valid_input float Rltb (Some 1) (Some 50) (Some 20.0) 3 ;;
  pv_per_row <~
    get_valid_input int Z.ltb (Some 1%Z) (Some 100%Z) (Some 10%Z) 3 ;;
  num_rows <~
    get_valid_input int Z.ltb (Some 1%Z) (Some 1000%Z) (Some 20%Z) 3 ;;
  column_spacing <~
    get_valid_input float Rltb (Some 0.5) (Some 10) (Some 2.5) 3 ;;
  span_length <~ get_valid_input float Rltb (Some 1) (Some 50) (Some 10.0) 3 ;;
  io_ret (mk_params location roof_type tilt_angle mounting_height pv_length
                    pv_width pv_weight pv_per_row num_rows column_spacing
                    span_length).
End UserInput.

(** Converters for the examples: [int] and [float] on the strings of
    decimal digits, every other string being refused with [ValueError]. *)
Fixpoint digits_value (s : string) (acc : Z) : option Z :=
  match s with
  | EmptyString => Some acc
  | String c rest =>
      let n := Ascii.nat_of_ascii c in
      if ((48 <=? n) && (n <=? 57))%nat
      then digits_value rest (10 * acc + Z.of_nat (n - 48))%Z
      else None
  end.

Definition int_of_digits (s : string) : result Z :=
  match s with
  | EmptyString => Raise ValueError
  | _ =>
      match digits_value s 0 with
      | Some z => Ok z
      | None => Raise ValueError
      end
  end.

Definition float_of_digits (s : string) : result R :=
  z <- int_of_digits s ;; Ok (IZR z).

(** ** The loop of [main] *)

(** How [main] ends: by [break], or with the [EOFError] that the [input]
    call of its [except] handler raises once the answers have run out. *)
Inductive ending : Type :=
| Break
| Uncaught_EOFError
| Out_of_fuel.

Section Main.
Variable float : string -> result R.
Variable int : string -> result Z.
(** [str.lower] *)
Variable lower : string -> string.

(** [restart != 'y'] for [restart = input(...).strip().lower()]. *)
Definition declines (answer : string) : bool :=
  negb (String.eqb (lower answer) "y").

(** The records handed to [display_results], in order, and how the loop
    ends.  An exception inside the [try] leads to the handler, which asks
    whether to start again. *)
Fixpoint main_loop (fuel : nat) (inp : list string)
    : list result_record * ending :=
  match fuel with
  | O => ([], Out_of_fuel)
  | S fuel' =>
      match get_user_input float int inp with
      | Done p rest =>
          let shown := main_calculation p in
          match rest with
          | [] => ([shown], Uncaught_EOFError)
          | restart :: rest' =>
              if declines restart then ([shown], Break)
              else
                let (more, e) := main_loop fuel' rest' in
                (shown :: more, e)
          end
      | Fault _ rest =>
          match rest with
          | [] => ([], Uncaught_EOFError)
          | restart :: rest' =>
              if declines restart then ([], Break)
              else main_loop fuel' rest'
          end
      | Eof => ([], Uncaught_EOFError)
      end
  end.

(** Every round reads at least one answer, so the number of answers
    bounds the number of rounds. *)
Definition main (inp : list string) : list result_record * ending :=
  main_loop (S (List.length inp)) inp.
End Main.

(** ** Further notions used in the statements *)

(** An input function that leaves no more answers than it was given. *)
Definition shrinks {A : Type} (m : io A) : Prop :=
  forall inp,
    match m inp with
    | Done _ rest | Fault _ rest => (List.length rest <= List.length inp)%nat
    | Eof => True
    end.

(** The area of the catalog entry [s], read where the comments place it. *)
Definition catalog_area (s : string) : result R :=
  props <- getitem STEEL_SECTIONS s ;; documented_area props.


Definition with_location (p : params) (loc : string) : params :=
  mk_params loc (roof_type p) (tilt_angle p) (mounting_height p)
            (pv_length p) (pv_width p) (pv_weight p) (pv_per_row p)
            (num_rows p) (column_spacing p) (span_length p).

Definition with_roof_type (p : params) (roof : string) : params :=
  mk_params (location p) roof (tilt_angle p) (mounting_height p)
            (pv_length p) (pv_width p) (pv_weight p) (pv_per_row p)
            (num_rows p) (column_spacing p) (span_length p).

Definition with_tilt_angle (p : params) (tilt : R) : params :=
  mk_params (location p) (roof_type p) tilt (mounting_height p)
            (pv_length p) (pv_width p) (pv_weight p) (pv_per_row p)
            (num_rows p) (column_spacing p) (span_length p).

Definition with_mounting_height (p : params) (height : R) : params :=
  mk_params (location p) (roof_type p) (tilt_angle p) height
            (pv_length p) (pv_width p) (pv_weight p) (pv_per_row p)
            (num_rows p) (column_spacing p) (span_length p).

(** The ranges [get_user_input] enforces on the record it returns. *)
Record validated (p : params) : Prop := mk_validated {
  v_location : In (location p) (keys CITY_LOAD_DATA);
  v_roof_type : In (roof_type p) (keys WIND_SHAPE_COEFF);
  v_tilt_angle : 0 <= tilt_angle p <= 90;
  v_mounting_height : 0.1 <= mounting_height p <= 50;
  v_pv_length : 0.5 <= pv_length p <= 3.0;
  v_pv_width : 0.5 <= pv_width p <= 2.0;
  v_pv_weight : 1 <= pv_weight p <= 50;
  v_pv_per_row : (1 <= pv_per_row p <= 100)%Z;
  v_num_rows : (1 <= num_rows p <= 1000)%Z;
  v_column_spacing : 0.5 <= column_spacing p <= 10;
  v_span_length : 1 <= span_length p <= 50
}.

(** * Properties *)

(** ** Primitives *)

Lemma ceil_unique (x : R) (n : Z) :
  IZR n - 1 < x <= IZR n -> ceil x = n.
Proof.
  intros [Hlo Hhi]. unfold ceil.
  assert (E : (1 - n)%Z = up (- x)).
  { apply tech_up; rewrite minus_IZR; lra. }
  lia.
Qed.

Lemma ceil_bounds (x : R) : IZR (ceil x) - 1 < x <= IZR (ceil x).
Proof.
  unfold ceil. rewrite minus_IZR.
  destruct (archimed (- x)) as [H1 H2]. lra.
Qed.

Lemma max3_Rmax (a b c : R) : max3 a b c = Rmax (Rmax a b) c.
Proof.
  unfold max3, Rmax.
  destruct (Rgt_dec b a), (Rle_dec a b);
  repeat match goal with
         | |- context [Rgt_dec ?x ?y] => destruct (Rgt_dec x y)
         | |- context [Rle_dec ?x ?y] => destruct (Rle_dec x y)
         end; lra.
Qed.

(** ** The scan of the catalog *)

Lemma scan_sections_outcome (r : R) :
  scan_sections STEEL_SECTIONS r = scan_outcome r.
Proof.
  unfold scan_outcome, STEEL_SECTIONS. cbn [scan_sections index nth_error bind].
  repeat match goal with
         | |- context [Rge_dec ?a r] => destruct (Rge_dec a r); try reflexivity
         end.
Qed.

Lemma select_column_section_eq (dl : R) (p : params) :
  select_column_section dl p =
  match required_area_cm2 dl p with
  | Ok r => selection_for r
  | Raise _ => "□100x100x3.5"%string
  end.
Proof.
  unfold select_column_section, select_column_section_body.
  destruct (required_area_cm2 dl p) as [r | e]; [ | reflexivity ].
  cbn [bind]. rewrite scan_sections_outcome.
  unfold scan_outcome, selection_for.
  repeat match goal with
         | |- context [Rge_dec ?a r] => destruct (Rge_dec a r); try reflexivity
         end.
Qed.

Lemma selection_for_returned (r : R) : In (selection_for r) returned_sections.
Proof.
  unfold selection_for, returned_sections.
  repeat match goal with
         | |- context [Rge_dec ?a r] => destruct (Rge_dec a r)
         end; simpl; tauto.
Qed.

Lemma select_column_section_returned (dl : R) (p : params) :
  In (select_column_section dl p) returned_sections.
Proof.
  rewrite select_column_section_eq.
  destruct (required_area_cm2 dl p); [ apply selection_for_returned | ].
  simpl; tauto.
Qed.

(** ** The required area *)

Lemma total_columns_pos (p : params) :
  0 < span_length p -> 0 < column_spacing p -> (0 < num_rows p)%Z ->
  (0 < total_columns p)%Z.
Proof.
  intros Hs Hc Hn. unfold total_columns.
  assert (Hq : 0 < span_length p / column_spacing p)
    by (apply Rdiv_lt_0_compat; assumption).
  destruct (ceil_bounds (span_length p / column_spacing p)) as [_ Hhi].
  assert (Hz : 0 < IZR (ceil (span_length p / column_spacing p))) by lra.
  apply lt_IZR in Hz. lia.
Qed.

Lemma required_area_cm2_domain (dl : R) (p : params) :
  0 < span_length p -> 0 < column_spacing p -> (0 < num_rows p)%Z ->
  required_area_cm2 dl p =
  Ok (dl / IZR (total_columns p) * 1000 / (235 / 1.5) / 100).
Proof.
  intros Hs Hc Hn.
  pose proof (total_columns_pos p Hs Hc Hn) as Ht.
  unfold required_area_cm2, fdiv.
  destruct (Req_dec_T (column_spacing p) 0) as [E | _]; [ lra | ].
  cbn [bind]. fold (total_columns p).
  destruct (Z.eqb_spec (total_columns p) 0) as [E | _]; [ lia | ].
  destruct (Req_dec_T (IZR (total_columns p)) 0) as [E | _].
  - apply eq_IZR in E. lia.
  - reflexivity.
Qed.

Lemma total_columns_default : total_columns default_params = 80%Z.
Proof.
  unfold total_columns, default_params; cbn [span_length column_spacing num_rows].
  rewrite (ceil_unique (10.0 / 2.5) 4); [ reflexivity | lra ].
Qed.

Lemma required_area_cm2_default (dl : R) :
  required_area_cm2 dl default_params = Ok (dl / 80 * 1000 / (235 / 1.5) / 100).
Proof.
  rewrite required_area_cm2_domain.
  - rewrite total_columns_default. reflexivity.
  - simpl; lra.
  - simpl; lra.
  - simpl; lia.
Qed.

(** ** Catalog order *)

Ltac ascending_pairs :=
  intros e1 e2 Hin; cbn in Hin;
  repeat (destruct Hin as [Hin | Hin];
          [ injection Hin as <- <-; cbn; do 2 eexists;
            repeat split; try reflexivity; lra | ]);
  contradiction.

Lemma c_sections_ascending : ascending_by area_index4 c_sections.
Proof. ascending_pairs. Qed.

Lemma square_tubes_ascending : ascending_by area_index2 square_tubes.
Proof. ascending_pairs. Qed.

Lemma family_boundary_in :
  In (("C140x50x20x3.0"%string, [140; 50; 20; 3.0; 8.64; 322.55]),
      ("□60x60x2.5"%string, [60; 2.5; 5.67; 34.45]))
     (consecutive STEEL_SECTIONS).
Proof. cbn. do 3 right. left. reflexivity. Qed.

(** C1, as stated, does not hold: the entry after C140x50x20x3.0 is
    □60x60x2.5, whose property list has no index 4; and with the area read
    where the comments place it (5.67) it is below the 8.64 before it. *)
Lemma catalog_not_ascending :
  ~ ascending_by area_index4 STEEL_SECTIONS /\
  ~ ascending_by documented_area STEEL_SECTIONS.
Proof.
  split; intros H;
    destruct (H _ _ family_boundary_in) as (a1 & a2 & H1 & H2 & Hle);
    cbn in H1, H2.
  - discriminate H2.
  - injection H1 as <-. injection H2 as <-. lra.
Qed.

(** C1, amended: the catalog is the four C sections followed by the four
    square tubes; the C sections ascend in the area at index 4, the square
    tubes ascend in the area at index 2 of their four-entry property list,
    and every entry's area can be read where the comments place it. *)
Theorem catalog_ascending_within_family :
  STEEL_SECTIONS = c_sections ++ square_tubes /\
  ascending_by area_index4 c_sections /\
  ascending_by area_index2 square_tubes /\
  Forall (fun e => exists a, documented_area (snd e) = Ok a) STEEL_SECTIONS.
Proof.
  split; [ reflexivity | ].
  split; [ apply c_sections_ascending | ].
  split; [ apply square_tubes_ascending | ].
  unfold STEEL_SECTIONS. repeat constructor; cbn; eexists; reflexivity.
Qed.

(** ** Section selection *)

Lemma select_column_section_above_c_sections (dl : R) (p : params) (r : R) :
  required_area_cm2 dl p = Ok r -> 8.64 < r ->
  select_column_section_body dl p = Raise IndexError /\
  select_column_section dl p = "□100x100x3.5"%string.
Proof.
  intros Hr Hlt.
  assert (Hs : scan_sections STEEL_SECTIONS r = Raise IndexError).
  { rewrite scan_sections_outcome. unfold scan_outcome.
    repeat match goal with
           | |- context [Rge_dec ?a r] => destruct (Rge_dec a r); try lra
           end.
    reflexivity. }
  unfold select_column_section, select_column_section_body.
  rewrite Hr. cbn [bind]. rewrite Hs. split; reflexivity.
Qed.

Lemma max_fallback_raises :
  max_by_key area_key (keys STEEL_SECTIONS) = Raise IndexError.
Proof.
  cbn.
  repeat match goal with
         | |- context [Rgt_dec ?a ?b] => destruct (Rgt_dec a b); cbn
         end; reflexivity.
Qed.

(** C9: whatever the design load and the parameters,
    [select_column_section] returns a key of [STEEL_SECTIONS], so the
    lookup [STEEL_SECTIONS[column_section]] of [calculate_steel_usage]
    succeeds on it. *)
Theorem select_column_section_is_catalog_key (dl : R) (p : params) :
  In (select_column_section dl p) (keys STEEL_SECTIONS) /\
  exists props, getitem STEEL_SECTIONS (select_column_section dl p) = Ok props.
Proof.
  pose proof (select_column_section_returned dl p) as H.
  unfold returned_sections in H. cbn [In] in H.
  repeat (destruct H as [H | H]; [ rewrite <- H; split;
    [ cbn; tauto | eexists; reflexivity ] | ]).
  contradiction.
Qed.

(** C10: [select_column_section] never returns □60x60x2.5.  A required
    area of at most 5.67 cm2 is already met by C80x40x15x2.0 or
    C100x50x20x2.5, which are scanned first; the maximum-area fallback does
    not yield it; and when the body raises the result is □100x100x3.5. *)
Theorem select_column_section_never_square60 (dl : R) (p : params) :
  select_column_section dl p <> "□60x60x2.5"%string /\
  (forall r, required_area_cm2 dl p = Ok r -> r <= 5.67 ->
     select_column_section dl p = "C80x40x15x2.0"%string \/
     select_column_section dl p = "C100x50x20x2.5"%string) /\
  max_by_key area_key (keys STEEL_SECTIONS) <> Ok "□60x60x2.5"%string /\
  (forall e, select_column_section_body dl p = Raise e ->
     select_column_section dl p = "□100x100x3.5"%string /\
     select_column_section dl p <> "□60x60x2.5"%string).
Proof.
  assert (Hne : select_column_section dl p <> "□60x60x2.5"%string).
  { pose proof (select_column_section_returned dl p) as H.
    unfold returned_sections in H. cbn [In] in H.
    repeat (destruct H as [H | H]; [ rewrite <- H; discriminate | ]).
    contradiction. }
  split; [ exact Hne | ].
  split; [ | split ].
  - intros r Hr Hle. rewrite select_column_section_eq, Hr.
    unfold selection_for.
    destruct (Rge_dec 4.24 r); [ left; reflexivity | ].
    destruct (Rge_dec 6.78 r); [ right; reflexivity | lra ].
  - rewrite max_fallback_raises. discriminate.
  - intros e He. split; [ | exact Hne ].
    unfold select_column_section. rewrite He. reflexivity.
Qed.

Lemma select_column_section_never_square60_witness :
  required_area_cm2 250 default_params
  = Ok (250 / 80 * 1000 / (235 / 1.5) / 100) /\
  250 / 80 * 1000 / (235 / 1.5) / 100 <= 5.67 /\
  (select_column_section 250 default_params = "C80x40x15x2.0"%string \/
   select_column_section 250 default_params = "C100x50x20x2.5"%string).
Proof.
  split; [ apply required_area_cm2_default | ].
  split; [ lra | ].
  apply (proj1 (proj2 (select_column_section_never_square60 250 default_params))
           (250 / 80 * 1000 / (235 / 1.5) / 100)).
  - apply required_area_cm2_default.
  - lra.
Defined.

(** ** Coefficient bands *)

Ltac bands :=
  repeat match goal with
         | |- context [Rle_dec ?a ?b] => destruct (Rle_dec a b); try lra
         end.

Lemma calculate_snow_load_eq (p : params) :
  calculate_snow_load p =
  snow_mu_r (tilt_angle p)
  * snow (dict_get CITY_LOAD_DATA (location p) (mk_city_load 0.40 0.35))
  * (pv_length p * pv_width p * cos (radians (tilt_angle p)))
  * IZR (pv_per_row p) * IZR (num_rows p).
Proof. reflexivity. Qed.

Lemma calculate_wind_load_eq (p : params) :
  calculate_wind_load p =
  Rabs (1.0 * dict_get WIND_SHAPE_COEFF (roof_type p) 1.0
        * wind_mu_z (mounting_height p)
        * wind (dict_get CITY_LOAD_DATA (location p) (mk_city_load 0.40 0.35))
        * (sin (radians (tilt_angle p)) * pv_length p * pv_width p)
        * IZR (pv_per_row p) * IZR (num_rows p)).
Proof. reflexivity. Qed.

(** C4: the snow distribution coefficient of [calculate_snow_load] is 1.0
    up to 25 degrees, 1 - (tilt - 25)/25 above 25 and up to 50 degrees, and
    0 above 50 degrees; its values at 0, 25, 37.5, 50 and 75 degrees are
    1.0, 1.0, 0.5, 0 and 0. *)
Theorem snow_mu_r_bands :
  (forall p, calculate_snow_load p =
     snow_mu_r (tilt_angle p)
     * snow (dict_get CITY_LOAD_DATA (location p) (mk_city_load 0.40 0.35))
     * (pv_length p * pv_width p * cos (radians (tilt_angle p)))
     * IZR (pv_per_row p) * IZR (num_rows p)) /\
  (forall tilt, tilt <= 25 -> snow_mu_r tilt = 1.0) /\
  (forall tilt, 25 < tilt <= 50 -> snow_mu_r tilt = 1 - (tilt - 25) / 25) /\
  (forall tilt, 50 < tilt -> snow_mu_r tilt = 0) /\
  snow_mu_r 0 = 1.0 /\ snow_mu_r 25 = 1.0 /\ snow_mu_r 37.5 = 0.5 /\
  snow_mu_r 50 = 0 /\ snow_mu_r 75 = 0.
Proof.
  split; [ exact calculate_snow_load_eq | ].
  unfold snow_mu_r.
  repeat split; intros; bands.
Qed.

Lemma snow_mu_r_bands_witness :
  snow_mu_r 10 = 1.0 /\ snow_mu_r 40 = 1 - (40 - 25) / 25 /\ snow_mu_r 60 = 0.
Proof.
  destruct snow_mu_r_bands as (_ & Hlow & Hmid & Hhigh & _).
  split; [ apply Hlow; lra | ].
  split; [ apply Hmid; lra | apply Hhigh; lra ].
Defined.

(** C5: the height coefficient of [calculate_wind_load] is 1.0 up to 5 m,
    1.0 above 5 m and up to 10 m, 1.14 above 10 m and up to 15 m, and 1.25
    above 15 m; its values at 5, 10, 10.01, 15 and 15.01 m are 1.0, 1.0,
    1.14, 1.14 and 1.25. *)
Theorem wind_mu_z_bands :
  (forall p, calculate_wind_load p =
     Rabs (1.0 * dict_get WIND_SHAPE_COEFF (roof_type p) 1.0
           * wind_mu_z (mounting_height p)
           * wind (dict_get CITY_LOAD_DATA (location p) (mk_city_load 0.40 0.35))
           * (sin (radians (tilt_angle p)) * pv_length p * pv_width p)
           * IZR (pv_per_row p) * IZR (num_rows p))) /\
  (forall height, height <= 5 -> wind_mu_z height = 1.0) /\
  (forall height, 5 < height <= 10 -> wind_mu_z height = 1.0) /\
  (forall height, 10 < height <= 15 -> wind_mu_z height = 1.14) /\
  (forall height, 15 < height -> wind_mu_z height = 1.25) /\
  wind_mu_z 5 = 1.0 /\ wind_mu_z 10 = 1.0 /\ wind_mu_z 10.01 = 1.14 /\
  wind_mu_z 15 = 1.14 /\ wind_mu_z 15.01 = 1.25.
Proof.
  split; [ exact calculate_wind_load_eq | ].
  unfold wind_mu_z.
  repeat split; intros; bands.
Qed.

Lemma wind_mu_z_bands_witness :
  wind_mu_z 3 = 1.0 /\ wind_mu_z 8 = 1.0 /\ wind_mu_z 12 = 1.14 /\
  wind_mu_z 20 = 1.25.
Proof.
  destruct wind_mu_z_bands as (_ & H1 & H2 & H3 & H4 & _).
  split; [ apply H1; lra | ].
  split; [ apply H2; lra | ].
  split; [ apply H3; lra | apply H4; lra ].
Defined.

(** ** Load combination *)

(** C6: for all loads, [calculate_combined_load] returns
    combo1 = 1.2 dead + 1.4 wind, combo2 = 1.2 dead + 1.4 snow,
    combo3 = 1.2 dead + 0.9 * 1.4 * (wind + snow), and the design load is
    the maximum of the three. *)
Theorem calculate_combined_load_spec (dead_load wind_load snow_load : R) :
  let c := calculate_combined_load dead_load wind_load snow_load in
  combo1 c = 1.2 * dead_load + 1.4 * wind_load /\
  combo2 c = 1.2 * dead_load + 1.4 * snow_load /\
  combo3 c = 1.2 * dead_load + 0.9 * 1.4 * (wind_load + snow_load) /\
  design_load c = Rmax (Rmax (combo1 c) (combo2 c)) (combo3 c).
Proof.
  cbn. repeat split. apply max3_Rmax.
Qed.

Lemma combos_eq (d w s : R) :
  combo1 (calculate_combined_load d w s) = 1.2 * d + 1.4 * w /\
  combo2 (calculate_combined_load d w s) = 1.2 * d + 1.4 * s /\
  combo3 (calculate_combined_load d w s) = 1.2 * d + 0.9 * 1.4 * (w + s).
Proof. repeat split. Qed.

Lemma design_load_eq (d w s : R) :
  design_load (calculate_combined_load d w s) =
  Rmax (Rmax (1.2 * d + 1.4 * w) (1.2 * d + 1.4 * s))
       (1.2 * d + 0.9 * 1.4 * (w + s)).
Proof. cbn. apply max3_Rmax. Qed.

Lemma Rmax_mono (a b a' b' : R) :
  a <= a' -> b <= b' -> Rmax a b <= Rmax a' b'.
Proof.
  intros Ha Hb. unfold Rmax.
  destruct (Rle_dec a b), (Rle_dec a' b'); lra.
Qed.

Lemma design_load_le (d w s d' w' s' : R) :
  d <= d' -> w <= w' -> s <= s' ->
  design_load (calculate_combined_load d w s)
  <= design_load (calculate_combined_load d' w' s').
Proof.
  intros Hd Hw Hs. rewrite !design_load_eq.
  repeat apply Rmax_mono; lra.
Qed.

(** C7: for non-negative loads, raising the dead load, the wind load or
    the snow load alone never lowers the design load. *)
Theorem design_load_monotone (d w s x : R) :
  0 <= d -> 0 <= w -> 0 <= s ->
  (d <= x ->
   design_load (calculate_combined_load d w s)
   <= design_load (calculate_combined_load x w s)) /\
  (w <= x ->
   design_load (calculate_combined_load d w s)
   <= design_load (calculate_combined_load d x s)) /\
  (s <= x ->
   design_load (calculate_combined_load d w s)
   <= design_load (calculate_combined_load d w x)).
Proof.
  intros _ _ _. repeat split; intros Hx; apply design_load_le; lra.
Qed.

Lemma design_load_monotone_witness :
  design_load (calculate_combined_load 50 68 82)
  <= design_load (calculate_combined_load 60 68 82) /\
  design_load (calculate_combined_load 50 68 82)
  <= design_load (calculate_combined_load 50 70 82) /\
  design_load (calculate_combined_load 50 68 82)
  <= design_load (calculate_combined_load 50 68 90).
Proof.
  split; [ | split ].
  - apply (proj1 (design_load_monotone 50 68 82 60
                    ltac:(lra) ltac:(lra) ltac:(lra))). lra.
  - apply (proj1 (proj2 (design_load_monotone 50 68 82 70
                    ltac:(lra) ltac:(lra) ltac:(lra)))). lra.
  - apply (proj2 (proj2 (design_load_monotone 50 68 82 90
                    ltac:(lra) ltac:(lra) ltac:(lra)))). lra.
Defined.

(** ** Non-negative loads *)

Lemma city_snow_nonneg (loc : string) (dflt : city_load) :
  0 <= snow dflt -> 0 <= snow (dict_get CITY_LOAD_DATA loc dflt).
Proof.
  intros Hd. unfold dict_get, CITY_LOAD_DATA. cbn [dict_lookup].
  repeat match goal with
         | |- context [String.eqb ?a loc] => destruct (String.eqb a loc)
         end; cbn [snow]; lra.
Qed.

Lemma snow_mu_r_nonneg (tilt : R) : 0 <= snow_mu_r tilt.
Proof. unfold snow_mu_r. bands. Qed.

Lemma cos_radians_nonneg (tilt : R) :
  0 <= tilt <= 90 -> 0 <= cos (radians tilt).
Proof.
  intros [Hlo Hhi]. pose proof PI_RGT_0 as Hpi. unfold radians.
  apply cos_ge_0; nra.
Qed.

Lemma calculate_dead_load_eq (p : params) :
  calculate_dead_load p =
  (pv_weight p * IZR (pv_per_row p) * IZR (num_rows p)
   + pv_weight p * IZR (pv_per_row p) * IZR (num_rows p) * 0.3) * 0.0098.
Proof. reflexivity. Qed.

Lemma IZR_pos (n : Z) : (0 < n)%Z -> 0 < IZR n.
Proof. intros H. apply (IZR_lt 0 n H). Qed.

(** C8: for parameters in their domain (tilt in [0, 90], positive
    dimensions, weight and counts, any location and roof type), the wind,
    snow and dead loads are non-negative. *)
Theorem loads_nonnegative (p : params) :
  0 <= tilt_angle p <= 90 ->
  0 < mounting_height p ->
  0 < pv_length p -> 0 < pv_width p -> 0 < pv_weight p ->
  (0 < pv_per_row p)%Z -> (0 < num_rows p)%Z ->
  0 < column_spacing p -> 0 < span_length p ->
  0 <= calculate_wind_load p /\
  0 <= calculate_snow_load p /\
  0 <= calculate_dead_load p.
Proof.
  intros Ht _ Hl Hw Hk Hn Hr _ _.
  apply IZR_pos in Hn. apply IZR_pos in Hr.
  split; [ | split ].
  - rewrite calculate_wind_load_eq. apply Rabs_pos.
  - rewrite calculate_snow_load_eq.
    pose proof (snow_mu_r_nonneg (tilt_angle p)) as Hmu.
    pose proof (cos_radians_nonneg _ Ht) as Hc.
    pose proof (city_snow_nonneg (location p) (mk_city_load 0.40 0.35)) as Hs.
    cbn [snow] in Hs. specialize (Hs ltac:(lra)).
    repeat apply Rmult_le_pos; lra.
  - rewrite calculate_dead_load_eq.
    assert (Hm : 0 <= pv_weight p * IZR (pv_per_row p) * IZR (num_rows p))
      by (repeat apply Rmult_le_pos; lra).
    lra.
Qed.

Lemma loads_nonnegative_witness :
  0 <= calculate_wind_load default_params /\
  0 <= calculate_snow_load default_params /\
  0 <= calculate_dead_load default_params.
Proof.
  apply (loads_nonnegative default_params); simpl; try lra; lia.
Defined.

(** ** The default scenario *)

Lemma sqrt3_bounds : 1.732 < sqrt 3 < 1.7321.
Proof.
  pose proof (sqrt_sqrt 3 ltac:(lra)) as Hsq.
  pose proof (sqrt_pos 3) as Hpos.
  split; nra.
Qed.

Lemma radians_30 : radians 30.0 = PI / 6.
Proof. unfold radians. lra. Qed.

Lemma wind_load_default : calculate_wind_load default_params = 68.
Proof.
  rewrite calculate_wind_load_eq.
  unfold default_params;
    cbn [roof_type mounting_height location tilt_angle pv_length pv_width
         pv_per_row num_rows].
  change (dict_get WIND_SHAPE_COEFF "平顶" 1.0) with 1.0.
  change (dict_get CITY_LOAD_DATA "默认" (mk_city_load 0.40 0.35))
    with (mk_city_load 0.40 0.35).
  cbn [wind]. rewrite radians_30, sin_PI6.
  replace (wind_mu_z 3.0) with 1.0 by (unfold wind_mu_z; bands).
  rewrite Rabs_right; lra.
Qed.

Lemma snow_load_default : calculate_snow_load default_params = 47.6 * sqrt 3.
Proof.
  rewrite calculate_snow_load_eq.
  unfold default_params;
    cbn [location tilt_angle pv_length pv_width pv_per_row num_rows].
  change (dict_get CITY_LOAD_DATA "默认" (mk_city_load 0.40 0.35))
    with (mk_city_load 0.40 0.35).
  cbn [snow]. rewrite radians_30, cos_PI6.
  replace (snow_mu_r 30.0) with 0.8 by (unfold snow_mu_r; bands).
  lra.
Qed.

Lemma dead_load_default : calculate_dead_load default_params = 50.96.
Proof.
  rewrite calculate_dead_load_eq.
  unfold default_params; cbn [pv_weight pv_per_row num_rows]. lra.
Qed.

Lemma calculate_steel_usage_domain (p : params) (s : string)
    (props : list R) (a : R) :
  0 < column_spacing p ->
  getitem STEEL_SECTIONS s = Ok props -> index props 4 = Ok a ->
  let cw := a / 10000 * (mounting_height p * 1.2) * STEEL_DENSITY
            * IZR (total_columns p) in
  calculate_steel_usage p s =
  mk_steel_usage (cw + cw * 0.6 + (cw + cw * 0.6) * 0.15)
                 cw (cw * 0.6) ((cw + cw * 0.6) * 0.15).
Proof.
  intros Hc Hg Hi cw.
  unfold calculate_steel_usage, calculate_steel_usage_body, fdiv.
  destruct (Req_dec_T (column_spacing p) 0) as [E | _]; [ lra | ].
  cbn [bind]. rewrite Hg. cbn [bind]. rewrite Hi. reflexivity.
Qed.

Lemma steel_usage_default_c80 :
  calculate_steel_usage default_params "C80x40x15x2.0" =
  mk_steel_usage 1763.7857280 958.5792 575.14752 230.0590080.
Proof.
  rewrite (calculate_steel_usage_domain default_params "C80x40x15x2.0"
             [80; 40; 15; 2.0; 4.24; 43.92] 4.24);
    [ | simpl; lra | reflexivity | reflexivity ].
  rewrite total_columns_default.
  unfold default_params, STEEL_DENSITY; cbn [mounting_height].
  f_equal; lra.
Qed.

Lemma design_load_default :
  design_load (calculate_combined_load 50.96 68 (47.6 * sqrt 3)) =
  1.2 * 50.96 + 0.9 * 1.4 * (68 + 47.6 * sqrt 3).
Proof.
  pose proof sqrt3_bounds as Hs.
  rewrite design_load_eq. apply Rmax_right. apply Rmax_lub; lra.
Qed.

Lemma select_default :
  select_column_section
    (design_load (calculate_combined_load 50.96 68 (47.6 * sqrt 3)))
    default_params = "C80x40x15x2.0"%string.
Proof.
  pose proof sqrt3_bounds as Hs.
  rewrite design_load_default, select_column_section_eq,
    required_area_cm2_default.
  unfold selection_for.
  destruct (Rge_dec 4.24 _) as [_ | Hn]; [ reflexivity | lra ].
Qed.

(** C3: for the default parameters the pipeline gives wind, snow and dead
    loads of 68.00, 82.45 and 50.96 kN, combinations of 156.35, 176.58 and
    250.71 kN, a design load of 250.71 kN, 80 columns, the section
    C80x40x15x2.0 of 4.24 cm2, and 1764.7 kg of steel (959.1 kg of columns,
    575.4 kg of beams, 230.2 kg of connections), every figure within one
    percent. *)
Theorem default_scenario :
  let r := main_calculation default_params in
  within_1pct (r_wind_load r) 68.00 /\
  within_1pct (r_snow_load r) 82.45 /\
  within_1pct (r_dead_load r) 50.96 /\
  within_1pct (combo1 (r_combined r)) 156.35 /\
  within_1pct (combo2 (r_combined r)) 176.58 /\
  within_1pct (combo3 (r_combined r)) 250.71 /\
  within_1pct (design_load (r_combined r)) 250.71 /\
  total_columns default_params = 80%Z /\
  r_column_section r = "C80x40x15x2.0"%string /\
  (exists props, getitem STEEL_SECTIONS (r_column_section r) = Ok props /\
                 index props 4 = Ok 4.24) /\
  within_1pct (total_steel (r_steel r)) 1764.7 /\
  within_1pct (column_weight (r_steel r)) 959.1 /\
  within_1pct (beam_weight (r_steel r)) 575.4 /\
  within_1pct (connection_weight (r_steel r)) 230.2.
Proof.
  pose proof sqrt3_bounds as Hs.
  unfold main_calculation; cbv zeta.
  cbn [r_wind_load r_snow_load r_dead_load r_combined r_column_section r_steel].
  rewrite wind_load_default, snow_load_default, dead_load_default.
  rewrite select_default, steel_usage_default_c80, design_load_default.
  destruct (combos_eq 50.96 68 (47.6 * sqrt 3)) as (E1 & E2 & E3).
  rewrite E1, E2, E3.
  cbn [total_steel column_weight beam_weight connection_weight].
  unfold within_1pct.
  repeat split;
    try (apply Rabs_le; lra).
  - apply total_columns_default.
  - eexists; split; reflexivity.
Qed.

(** ** Arrays beyond the C sections *)

Lemma total_columns_array (n : Z) : total_columns (array_params n) = 1000%Z.
Proof.
  unfold total_columns, array_params; cbn [span_length column_spacing num_rows].
  rewrite (ceil_unique (1.0 / 10.0) 1); [ reflexivity | lra ].
Qed.

Lemma required_area_cm2_array (dl : R) (n : Z) :
  required_area_cm2 dl (array_params n) =
  Ok (dl / 1000 * 1000 / (235 / 1.5) / 100).
Proof.
  rewrite required_area_cm2_domain.
  - rewrite total_columns_array. reflexivity.
  - simpl; lra.
  - simpl; lra.
  - simpl; lia.
Qed.

Lemma wind_load_array (n : Z) :
  (0 < n)%Z -> calculate_wind_load (array_params n) = 1200 * IZR n.
Proof.
  intros Hn. apply IZR_pos in Hn.
  rewrite calculate_wind_load_eq.
  unfold array_params;
    cbn [roof_type mounting_height location tilt_angle pv_length pv_width
         pv_per_row num_rows].
  change (dict_get WIND_SHAPE_COEFF "平顶" 1.0) with 1.0.
  change (dict_get CITY_LOAD_DATA "默认" (mk_city_load 0.40 0.35))
    with (mk_city_load 0.40 0.35).
  cbn [wind]. rewrite radians_30, sin_PI6.
  replace (wind_mu_z 3.0) with 1.0 by (unfold wind_mu_z; bands).
  rewrite Rabs_right; lra.
Qed.

Lemma snow_load_array (n : Z) :
  calculate_snow_load (array_params n) = 840 * sqrt 3 * IZR n.
Proof.
  rewrite calculate_snow_load_eq.
  unfold array_params;
    cbn [location tilt_angle pv_length pv_width pv_per_row num_rows].
  change (dict_get CITY_LOAD_DATA "默认" (mk_city_load 0.40 0.35))
    with (mk_city_load 0.40 0.35).
  cbn [snow]. rewrite radians_30, cos_PI6.
  replace (snow_mu_r 30.0) with 0.8 by (unfold snow_mu_r; bands).
  nra.
Qed.

Lemma dead_load_array (n : Z) :
  calculate_dead_load (array_params n) = 637 * IZR n.
Proof.
  rewrite calculate_dead_load_eq.
  unfold array_params; cbn [pv_weight pv_per_row num_rows]. lra.
Qed.

Lemma calculate_steel_usage_square_default (p : params) :
  calculate_steel_usage p "□100x100x3.5" = mk_steel_usage 0 0 0 0.
Proof.
  unfold calculate_steel_usage, calculate_steel_usage_body.
  destruct (fdiv (span_length p) (column_spacing p)); reflexivity.
Qed.

(** Where [main] takes such an array: the required area, the section
    returned, and the design load the selector is given. *)
Lemma main_calculation_array (n : Z) :
  (0 < n)%Z ->
  let r := main_calculation (array_params n) in
  let dl := design_load (r_combined r) in
  1.2 * (637 * IZR n) + 1.4 * (1200 * IZR n) <= dl /\
  1.2 * (637 * IZR n) + 0.9 * 1.4 * (1200 * IZR n + 840 * sqrt 3 * IZR n) <= dl /\
  dl <= 1.2 * (637 * IZR n) + 1.4 * (1200 * IZR n + 840 * sqrt 3 * IZR n) /\
  required_area_cm2 dl (array_params n) = Ok (dl / 1000 * 1000 / (235 / 1.5) / 100) /\
  r_column_section r = select_column_section dl (array_params n).
Proof.
  intros Hn. pose proof (IZR_pos n Hn) as Hp.
  pose proof sqrt3_bounds as Hs.
  assert (Hsn : 0 <= 840 * sqrt 3 * IZR n)
    by (repeat apply Rmult_le_pos; lra).
  unfold main_calculation; cbv zeta.
  cbn [r_combined r_column_section].
  rewrite (wind_load_array n Hn), snow_load_array, dead_load_array.
  rewrite design_load_eq.
  split; [ | split; [ | split; [ | split ] ] ].
  - eapply Rle_trans; [ | apply Rmax_l ]. apply Rmax_l.
  - apply Rmax_r.
  - repeat apply Rmax_lub; lra.
  - apply required_area_cm2_array.
  - reflexivity.
Qed.

(** C2 on two arrays that [main] accepts.  With 60 panels per row the
    required area lies between 13.20 and 18.18 cm2, so □120x120x4.0 would
    carry it, yet the section returned is □100x100x3.5 of 13.20 cm2.  With
    100 panels per row the required area is above the 18.18 cm2 of every
    entry, and the section returned is again □100x100x3.5, not the
    maximum-area □120x120x4.0.  In both the scan ends with [IndexError] at
    the first square tube and the fallback is never reached. *)
Theorem select_column_section_large_arrays :
  let r60 := main_calculation (array_params 60) in
  let r100 := main_calculation (array_params 100) in
  (exists a, required_area_cm2 (design_load (r_combined r60)) (array_params 60)
             = Ok a /\ 13.20 < a <= 18.18) /\
  select_column_section_body (design_load (r_combined r60)) (array_params 60)
  = Raise IndexError /\
  r_column_section r60 = "□100x100x3.5"%string /\
  (exists a, required_area_cm2 (design_load (r_combined r100)) (array_params 100)
             = Ok a /\ 18.18 < a) /\
  select_column_section_body (design_load (r_combined r100)) (array_params 100)
  = Raise IndexError /\
  r_column_section r100 = "□100x100x3.5"%string /\
  (exists props, getitem STEEL_SECTIONS "□100x100x3.5" = Ok props /\
                 documented_area props = Ok 13.20) /\
  (exists props, getitem STEEL_SECTIONS "□120x120x4.0" = Ok props /\
                 documented_area props = Ok 18.18).
Proof.
  pose proof sqrt3_bounds as Hs.
  destruct (main_calculation_array 60 ltac:(lia)) as (_ & L60 & U60 & R60 & S60).
  destruct (main_calculation_array 100 ltac:(lia)) as (_ & L100 & _ & R100 & S100).
  cbv zeta.
  destruct (select_column_section_above_c_sections _ _ _ R60) as [B60 E60];
    [ lra | ].
  destruct (select_column_section_above_c_sections _ _ _ R100) as [B100 E100];
    [ lra | ].
  split; [ eexists; split; [ exact R60 | lra ] | ].
  split; [ exact B60 | ].
  split; [ rewrite S60; exact E60 | ].
  split; [ eexists; split; [ exact R100 | lra ] | ].
  split; [ exact B100 | ].
  split; [ rewrite S100; exact E100 | ].
  split; eexists; split; reflexivity.
Qed.

(** * Further properties *)

(** ** Faults of the section selector *)





(** ** First fit among the C sections *)

(** X2: when the required area is at most 8.64 cm2, the section returned
    is a catalog entry whose area (index 4) is at least the required area,
    and every entry scanned before it has an area (index 4) below the
    required area: it is the first C section that fits. *)
Theorem select_column_section_first_fit (dl : R) (p : params) (r : R) :
  required_area_cm2 dl p = Ok r -> r <= 8.64 ->
  exists before props after a,
    STEEL_SECTIONS = before ++ (select_column_section dl p, props) :: after /\
    index props 4 = Ok a /\ a >= r /\
    Forall (fun e => exists b, index (snd e) 4 = Ok b /\ b < r) before.
Proof.
  intros Hr Hle. rewrite select_column_section_eq, Hr.
  unfold selection_for.
  destruct (Rge_dec 4.24 r) as [H1 | H1].
  { exists [], [80; 40; 15; 2.0; 4.24; 43.92]. do 2 eexists.
    split; [ reflexivity | ].
    split; [ reflexivity | ].
    split; [ exact H1 | constructor ]. }
  destruct (Rge_dec 6.78 r) as [H2 | H2].
  { exists (firstn 1 STEEL_SECTIONS), [100; 50; 20; 2.5; 6.78; 112.12].
    do 2 eexists.
    split; [ reflexivity | ].
    split; [ reflexivity | ].
    split; [ exact H2 | ].
    repeat constructor; cbn; eexists; split; try reflexivity; lra. }
  destruct (Rge_dec 7.18 r) as [H3 | H3].
  { exists (firstn 2 STEEL_SECTIONS), [120; 50; 20; 2.5; 7.18; 198.60].
    do 2 eexists.
    split; [ reflexivity | ].
    split; [ reflexivity | ].
    split; [ exact H3 | ].
    repeat constructor; cbn; eexists; split; try reflexivity; lra. }
  destruct (Rge_dec 8.64 r) as [H4 | H4]; [ | lra ].
  exists (firstn 3 STEEL_SECTIONS), [140; 50; 20; 3.0; 8.64; 322.55].
  do 2 eexists.
  split; [ reflexivity | ].
  split; [ reflexivity | ].
  split; [ exact H4 | ].
  repeat constructor; cbn; eexists; split; try reflexivity; lra.
Qed.

Lemma select_column_section_first_fit_witness :
  exists before props after a,
    STEEL_SECTIONS =
      before ++ (select_column_section 8000 default_params, props) :: after /\
    index props 4 = Ok a /\ a >= 8000 / 80 * 1000 / (235 / 1.5) / 100 /\
    Forall (fun e => exists b, index (snd e) 4 = Ok b /\
                               b < 8000 / 80 * 1000 / (235 / 1.5) / 100) before.
Proof.
  apply (select_column_section_first_fit 8000 default_params).
  - apply required_area_cm2_default.
  - lra.
Defined.

(** ** Monotonicity of the selection *)

Lemma required_area_le (dl dl' : R) (n : Z) :
  (0 < n)%Z -> dl <= dl' ->
  dl / IZR n * 1000 / (235 / 1.5) / 100
  <= dl' / IZR n * 1000 / (235 / 1.5) / 100.
Proof.
  intros Hn Hle. apply IZR_pos in Hn.
  assert (H : dl / IZR n <= dl' / IZR n).
  { apply Rmult_le_compat_r; [ | exact Hle ].
    left. apply Rinv_0_lt_compat. exact Hn. }
  lra.
Qed.

(** X3: for a fixed geometry in its domain (positive span, spacing and
    row count) the required area is defined and does not decrease when the
    design load grows. *)
Theorem required_area_cm2_monotone (dl dl' : R) (p : params) :
  0 < span_length p -> 0 < column_spacing p -> (0 < num_rows p)%Z ->
  dl <= dl' ->
  exists r r',
    required_area_cm2 dl p = Ok r /\ required_area_cm2 dl' p = Ok r' /\
    r <= r'.
Proof.
  intros Hs Hc Hn Hle.
  do 2 eexists.
  split; [ apply required_area_cm2_domain; assumption | ].
  split; [ apply required_area_cm2_domain; assumption | ].
  apply required_area_le; [ | exact Hle ].
  apply total_columns_pos; assumption.
Qed.

Lemma required_area_cm2_monotone_witness :
  exists r r',
    required_area_cm2 100 default_params = Ok r /\
    required_area_cm2 200 default_params = Ok r' /\ r <= r'.
Proof.
  apply (required_area_cm2_monotone 100 200 default_params);
    simpl; try lra; lia.
Defined.

Lemma selection_for_area_le (r r' : R) :
  r <= r' ->
  exists a a',
    catalog_area (selection_for r) = Ok a /\
    catalog_area (selection_for r') = Ok a' /\ a <= a'.
Proof.
  intros Hle. unfold selection_for.
  repeat match goal with
         | |- context [Rge_dec ?x r] => destruct (Rge_dec x r)
         end;
  repeat match goal with
         | |- context [Rge_dec ?x r'] => destruct (Rge_dec x r')
         end;
  try lra;
  do 2 eexists; (split; [ reflexivity | split; [ reflexivity | lra ] ]).
Qed.

(** X4: for a fixed geometry in its domain, a larger design load never
    selects a section of smaller area (the area read where the catalog's
    comments place it). *)
Theorem select_column_section_monotone (dl dl' : R) (p : params) :
  0 < span_length p -> 0 < column_spacing p -> (0 < num_rows p)%Z ->
  dl <= dl' ->
  exists a a',
    catalog_area (select_column_section dl p) = Ok a /\
    catalog_area (select_column_section dl' p) = Ok a' /\ a <= a'.
Proof.
  intros Hs Hc Hn Hle.
  rewrite !select_column_section_eq.
  rewrite !required_area_cm2_domain by assumption.
  apply selection_for_area_le, required_area_le; [ | exact Hle ].
  apply total_columns_pos; assumption.
Qed.

Lemma select_column_section_monotone_witness :
  exists a a',
    catalog_area (select_column_section 100 default_params) = Ok a /\
    catalog_area (select_column_section 9000 default_params) = Ok a' /\
    a <= a'.
Proof.
  apply (select_column_section_monotone 100 9000 default_params);
    simpl; try lra; lia.
Defined.

(** ** Steel usage by section *)





(** X6: whenever the required area of a run of [main] is above 8.64 cm2,
    the section reported is □100x100x3.5 and the steel estimate reported
    with it is all zeros. *)
Theorem main_calculation_beyond_c_sections (p : params) (r : R) :
  required_area_cm2 (design_load (r_combined (main_calculation p))) p = Ok r ->
  8.64 < r ->
  r_column_section (main_calculation p) = "□100x100x3.5"%string /\
  r_steel (main_calculation p) = mk_steel_usage 0 0 0 0.
Proof.
  intros Hr Hlt.
  unfold main_calculation in *; cbv zeta in *.
  cbn [r_combined r_column_section r_steel] in *.
  destruct (select_column_section_above_c_sections _ _ _ Hr Hlt) as [_ E].
  rewrite E. split; [ reflexivity | ].
  apply calculate_steel_usage_square_default.
Qed.

Lemma main_calculation_beyond_c_sections_witness :
  r_column_section (main_calculation (array_params 100))
  = "□100x100x3.5"%string /\
  r_steel (main_calculation (array_params 100)) = mk_steel_usage 0 0 0 0.
Proof.
  destruct (main_calculation_array 100 ltac:(lia)) as (_ & L & _ & Hr & _).
  cbv zeta in Hr, L.
  apply (main_calculation_beyond_c_sections _ _ Hr).
  pose proof sqrt3_bounds. lra.
Defined.

(** ** Structure of the load combination *)







(** ** The row count cancels in the selection *)





(** ** Keys that are not in the tables *)

Lemma dict_lookup_not_in {V : Type} (d : list (string * V)) (k : string) :
  ~ In k (keys d) -> dict_lookup d k = None.
Proof.
  induction d as [ | [k' v] d IH ]; intros Hn; [ reflexivity | ].
  cbn [dict_lookup]. destruct (String.eqb_spec k' k) as [E | _].
  - exfalso. apply Hn. left. exact E.
  - apply IH. intros Hin. apply Hn. right. exact Hin.
Qed.

Lemma dict_get_not_in {V : Type} (d : list (string * V)) (k : string)
    (dflt : V) :
  ~ In k (keys d) -> dict_get d k dflt = dflt.
Proof.
  intros Hn. unfold dict_get. rewrite (dict_lookup_not_in d k Hn). reflexivity.
Qed.

(** X10: a location that is not a key of [CITY_LOAD_DATA] gets the wind
    and snow loads of the entry 默认, and a roof type that is not a key of
    [WIND_SHAPE_COEFF] gets the wind load of the flat roof 平顶. *)
Theorem unknown_keys_fall_back (p : params) :
  (~ In (location p) (keys CITY_LOAD_DATA) ->
   calculate_wind_load p = calculate_wind_load (with_location p "默认") /\
   calculate_snow_load p = calculate_snow_load (with_location p "默认")) /\
  (~ In (roof_type p) (keys WIND_SHAPE_COEFF) ->
   calculate_wind_load p = calculate_wind_load (with_roof_type p "平顶")).
Proof.
  split.
  - intros Hn. rewrite !calculate_wind_load_eq, !calculate_snow_load_eq.
    cbn [with_location location roof_type tilt_angle mounting_height pv_length
         pv_width pv_per_row num_rows].
    rewrite (dict_get_not_in CITY_LOAD_DATA (location p) _ Hn).
    split; reflexivity.
  - intros Hn. rewrite !calculate_wind_load_eq.
    cbn [with_roof_type location roof_type tilt_angle mounting_height pv_length
         pv_width pv_per_row num_rows].
    rewrite (dict_get_not_in WIND_SHAPE_COEFF (roof_type p) _ Hn).
    reflexivity.
Qed.

Lemma unknown_keys_fall_back_witness :
  calculate_wind_load (with_location default_params "成都") =
  calculate_wind_load (with_location (with_location default_params "成都") "默认")
  /\
  calculate_wind_load (with_roof_type default_params "拱形") =
  calculate_wind_load (with_roof_type (with_roof_type default_params "拱形") "平顶").
Proof.
  split.
  - apply (proj1 (unknown_keys_fall_back (with_location default_params "成都"))).
    cbn. intros H.
    repeat (destruct H as [H | H]; [ discriminate H | ]). exact H.
  - apply (proj2 (unknown_keys_fall_back (with_roof_type default_params "拱形"))).
    cbn. intros H.
    repeat (destruct H as [H | H]; [ discriminate H | ]). exact H.
Defined.

(** ** When a load is zero *)

Lemma city_wind_pos (loc : string) (dflt : city_load) :
  0 < wind dflt -> 0 < wind (dict_get CITY_LOAD_DATA loc dflt).
Proof.
  intros Hd. unfold dict_get, CITY_LOAD_DATA. cbn [dict_lookup].
  repeat match goal with
         | |- context [String.eqb ?a loc] => destruct (String.eqb a loc)
         end; cbn [wind]; lra.
Qed.

Lemma shape_coeff_pos (roof : string) :
  0 < dict_get WIND_SHAPE_COEFF roof 1.0.
Proof.
  unfold dict_get, WIND_SHAPE_COEFF. cbn [dict_lookup].
  repeat match goal with
         | |- context [String.eqb ?a roof] => destruct (String.eqb a roof)
         end; lra.
Qed.

Lemma wind_mu_z_pos (height : R) : 0 < wind_mu_z height.
Proof. unfold wind_mu_z. bands. Qed.





Ltac pos_product :=
  solve [ repeat first [ assumption | lra | apply Rmult_lt_0_compat ] ].



(** ** Validated input *)

Section GetValidInputFacts.
Context {V : Type}.
Variable input_type : string -> result V.
Variable lt : V -> V -> bool.
Variables min_val max_val default : option V.

Local Abbreviation vld :=
  (validate input_type lt min_val max_val default).
Local Abbreviation loop :=
  (attempts_loop input_type lt min_val max_val default).
Local Abbreviation acc := (accepted input_type lt min_val max_val).

Lemma validate_Ok (answer : string) (v : V) :
  vld answer = Ok v ->
  (answer = ""%string /\ default = Some v) \/ acc answer v.
Proof.
  unfold validate, accepted.
  destruct (String.eqb_spec answer "") as [E | N].
  - destruct default as [d | ]; [ | discriminate ].
    intros H. injection H as <-. left. split; [ exact E | reflexivity ].
  - destruct (input_type answer) as [value | e]; [ | discriminate ].
    cbn [bind].
    destruct min_val as [lo | ], max_val as [hi | ];
      repeat match goal with
             | |- context [lt ?a ?b] => destruct (lt a b) eqn:?
             end;
      try discriminate;
      intros H; injection H as <-; right;
      repeat split; try assumption; try reflexivity;
      intros m Hm; try discriminate Hm; injection Hm as <-; assumption.
Qed.

Lemma attempts_loop_Done (n : nat) (inp rest : list string) (v : V) :
  loop n inp = Done v rest ->
  default = Some v \/ exists answer, In answer inp /\ acc answer v.
Proof.
  revert inp. induction n as [ | n IH ]; intros inp H.
  - cbn in H. destruct default as [d | ]; [ | discriminate ].
    injection H as <- _. left. reflexivity.
  - destruct inp as [ | a inp ]; [ discriminate | ].
    cbn in H. 
    destruct (vld a) as [value | e] eqn:Hv.
    + injection H as <- _.
      destruct (validate_Ok a value Hv) as [[_ Hd] | Hacc];
        [ left; exact Hd | right; exists a; split; [ left; reflexivity | exact Hacc ] ].
    + destruct e; try discriminate.
      destruct (IH inp H) as [Hd | (b & Hin & Hacc)];
        [ left; exact Hd | right; exists b; split; [ right; exact Hin | exact Hacc ] ].
Qed.

Lemma attempts_loop_consumes (n : nat) (inp rest : list string) :
  (exists v, loop n inp = Done v rest) \/
  (exists e, loop n inp = Fault e rest) ->
  exists used,
    inp = used ++ rest /\ (List.length used <= n)%nat /\
    (n <> O -> used <> []).
Proof.
  revert inp. induction n as [ | n IH ]; intros inp H.
  - exists []. cbn in H.
    destruct default as [d | ];
      destruct H as [[v H] | [e H]]; try discriminate;
      injection H as _ ->; (split; [ reflexivity | ]);
      (split; [ cbn; lia | intros N; contradiction ]).
  - destruct inp as [ | a inp ];
      [ destruct H as [[v H] | [e H]]; discriminate | ].
    cbn in H. 
    destruct (vld a) as [value | e0] eqn:Hv.
    + exists [a]. destruct H as [[v H] | [e H]]; [ | discriminate ].
      injection H as _ ->.
      split; [ reflexivity | split; [ cbn; lia | intros _; discriminate ] ].
    + assert (Hrec : e0 = ValueError ->
                     exists used, a :: inp = used ++ rest /\
                                  (List.length used <= S n)%nat /\
                                  (S n <> O -> used <> [])).
      { intros ->. destruct (IH inp H) as (used & -> & Hlen & _).
        exists (a :: used).
        split; [ reflexivity | split; [ cbn; lia | intros _; discriminate ] ]. }
      destruct e0; try (apply Hrec; reflexivity);
        (exists [a]; destruct H as [[v H] | [e H]]; [ discriminate | ];
         injection H as _ ->;
         split; [ reflexivity | split; [ cbn; lia | intros _; discriminate ] ]).
Qed.

Lemma attempts_loop_first_valid (n : nat) (bad : list string)
    (answer : string) (v : V) (rest : list string) :
  Forall (fun a => vld a = Raise ValueError) bad ->
  (List.length bad < n)%nat ->
  vld answer = Ok v ->
  loop n (bad ++ answer :: rest) = Done v rest.
Proof.
  intros Hbad. revert n.
  induction Hbad as [ | a bad Ha _ IH ]; intros n Hlen Hv.
  - destruct n as [ | n ]; [ cbn in Hlen; lia | ].
    cbn.  rewrite Hv. reflexivity.
  - destruct n as [ | n ]; [ cbn in Hlen; lia | ].
    cbn.  rewrite Ha.
    apply IH; [ cbn in Hlen; lia | exact Hv ].
Qed.

Lemma attempts_loop_exhausted (bad rest : list string) :
  Forall (fun a => vld a = Raise ValueError) bad ->
  loop (List.length bad) (bad ++ rest) =
  match default with
  | Some d => Done d rest
  | None => Fault ValueError rest
  end.
Proof.
  induction 1 as [ | a bad Ha _ IH ]; [ reflexivity | ].
  cbn.  rewrite Ha. exact IH.
Qed.
Lemma attempts_loop_eof (n : nat) (bad : list string) :
  Forall (fun a => vld a = Raise ValueError) bad ->
  (List.length bad < n)%nat ->
  loop n bad = Eof.
Proof.
  intros Hbad. revert n.
  induction Hbad as [ | a bad Ha _ IH ]; intros n Hlen.
  - destruct n as [ | n ]; [ cbn in Hlen; lia | reflexivity ].
  - destruct n as [ | n ]; [ cbn in Hlen; lia | ].
    cbn.  rewrite Ha. apply IH. cbn in Hlen; lia.
Qed.
End GetValidInputFacts.

(** X12: a value returned by [get_valid_input] is the default, or it is
    the conversion of a non-empty answer that is not below [min_val] and
    not above [max_val]. *)
Theorem get_valid_input_result {V : Type} (input_type : string -> result V)
    (lt : V -> V -> bool) (min_val max_val default : option V)
    (max_attempts : nat) (inp rest : list string) (v : V) :
  get_valid_input input_type lt min_val max_val default max_attempts inp
  = Done v rest ->
  default = Some v \/
  exists answer,
    In answer inp /\ answer <> ""%string /\ input_type answer = Ok v /\
    (forall m, min_val = Some m -> lt v m = false) /\
    (forall m, max_val = Some m -> lt m v = false).
Proof.
  intros H. apply attempts_loop_Done in H. exact H.
Qed.

Lemma get_valid_input_result_witness :
  Some 10%Z = Some 42%Z \/
  exists answer,
    In answer ["abc"; "250"; "42"; "y"]%string /\ answer <> ""%string /\
    int_of_digits answer = Ok 42%Z /\
    (forall m, Some 1%Z = Some m -> Z.ltb 42 m = false) /\
    (forall m, Some 100%Z = Some m -> Z.ltb m 42 = false).
Proof.
  apply (get_valid_input_result int_of_digits Z.ltb (Some 1%Z) (Some 100%Z)
           (Some 10%Z) 3 ["abc"; "250"; "42"; "y"]%string ["y"%string]).
  reflexivity.
Defined.

(** X13: [get_valid_input] gives each answer one attempt.  After fewer
    than [max_attempts] answers refused with [ValueError], the next answer
    that passes is returned and the answers after it are left unread; after
    [max_attempts] refused answers the default is returned, or [ValueError]
    is raised when there is none; and when the answers run out before that,
    the [EOFError] of [input] is not caught. *)
Theorem get_valid_input_attempts {V : Type} (input_type : string -> result V)
    (lt : V -> V -> bool) (min_val max_val default : option V)
    (max_attempts : nat) (bad : list string) :
  Forall (fun a => validate input_type lt min_val max_val default a
                   = Raise ValueError) bad ->
  (forall answer v rest,
     (List.length bad < max_attempts)%nat ->
     validate input_type lt min_val max_val default answer = Ok v ->
     get_valid_input input_type lt min_val max_val default max_attempts
       (bad ++ answer :: rest) = Done v rest) /\
  (forall rest,
     List.length bad = max_attempts ->
     get_valid_input input_type lt min_val max_val default max_attempts
       (bad ++ rest) =
     match default with
     | Some d => Done d rest
     | None => Fault ValueError rest
     end) /\
  ((List.length bad < max_attempts)%nat ->
   get_valid_input input_type lt min_val max_val default max_attempts bad
   = Eof).
Proof.
  intros Hbad. split; [ | split ].
  - intros answer v rest Hlen Hv.
    apply attempts_loop_first_valid; assumption.
  - intros rest <-. apply attempts_loop_exhausted. exact Hbad.
  - intros Hlen. apply attempts_loop_eof; assumption.
Qed.

Lemma get_valid_input_attempts_witness :
  get_valid_input int_of_digits Z.ltb (Some 1%Z) (Some 100%Z) None 3
    (["abc"; "250"]%string ++ ["42"; "y"]%string) = Done 42%Z ["y"%string] /\
  get_valid_input int_of_digits Z.ltb (Some 1%Z) (Some 100%Z) None 2
    (["abc"; "250"]%string ++ ["42"; "y"]%string)
  = Fault ValueError ["42"; "y"]%string /\
  get_valid_input int_of_digits Z.ltb (Some 1%Z) (Some 100%Z) None 3
    ["abc"; "250"]%string = Eof.
Proof.
  assert (Hbad : Forall (fun a => validate int_of_digits Z.ltb (Some 1%Z)
                                    (Some 100%Z) None a = Raise ValueError)
                   ["abc"; "250"]%string)
    by (repeat constructor).
  split; [ | split ].
  - apply (proj1 (get_valid_input_attempts int_of_digits Z.ltb (Some 1%Z)
                    (Some 100%Z) None 3 _ Hbad)).
    + cbn; lia.
    + reflexivity.
  - apply (proj1 (proj2 (get_valid_input_attempts int_of_digits Z.ltb
                           (Some 1%Z) (Some 100%Z) None 2 _ Hbad))
             ["42"; "y"]%string).
    reflexivity.
  - apply (proj2 (proj2 (get_valid_input_attempts int_of_digits Z.ltb
                           (Some 1%Z) (Some 100%Z) None 3 _ Hbad))).
    cbn; lia.
Defined.

(** X14: when [get_valid_input] returns or raises, it has read at most
    [max_attempts] answers from the front of the input, at least one
    unless [max_attempts] is 0, and leaves the others in order. *)
Theorem get_valid_input_reads_at_most {V : Type}
    (input_type : string -> result V) (lt : V -> V -> bool)
    (min_val max_val default : option V) (max_attempts : nat)
    (inp rest : list string) :
  (exists v, get_valid_input input_type lt min_val max_val default
               max_attempts inp = Done v rest) \/
  (exists e, get_valid_input input_type lt min_val max_val default
               max_attempts inp = Fault e rest) ->
  exists used,
    inp = used ++ rest /\ (List.length used <= max_attempts)%nat /\
    (max_attempts <> O -> used <> []).
Proof.
  apply attempts_loop_consumes.
Qed.

Lemma get_valid_input_reads_at_most_witness :
  exists used,
    ["abc"; "250"; "42"; "y"]%string = used ++ ["y"%string] /\
    (List.length used <= 3)%nat /\ (3%nat <> O -> used <> []).
Proof.
  apply (get_valid_input_reads_at_most int_of_digits Z.ltb (Some 1%Z)
           (Some 100%Z) (Some 10%Z) 3).
  left. exists 42%Z. reflexivity.
Defined.

(** ** The record built by [get_user_input] *)
























(** X17: the empty answer.  At a prompt of [get_valid_input] with a
    default it returns the default at once, whatever the converter and the
    bounds; without a default it uses up one attempt.  Answering every
    prompt of [get_user_input] with the Enter key alone therefore yields
    the default record and leaves the answers after the eleventh unread. *)
Theorem empty_answers_give_defaults (float : string -> result R)
    (int : string -> result Z) :
  (forall (V : Type) (input_type : string -> result V) (lt : V -> V -> bool)
          (min_val max_val : option V) (d : V) (n : nat) (rest : list string),
     get_valid_input input_type lt min_val max_val (Some d) (S n)
       (""%string :: rest) = Done d rest) /\
  (forall (V : Type) (input_type : string -> result V) (lt : V -> V -> bool)
          (min_val max_val : option V) (n : nat) (rest : list string),
     get_valid_input input_type lt min_val max_val None (S n)
       (""%string :: rest)
     = get_valid_input input_type lt min_val max_val None n rest) /\
  (forall rest,
     get_user_input float int (repeat ""%string 11 ++ rest)
     = Done default_params rest).
Proof.
  split; [ | split ].
  - intros. reflexivity.
  - intros. reflexivity.
  - intros rest. reflexivity.
Qed.

(** ** The pipeline on a validated record *)

Lemma validated_default : validated default_params.
Proof. constructor; cbn; try lra; try lia; tauto. Qed.

Lemma total_columns_range (p : params) :
  validated p -> (1 <= total_columns p <= 100000)%Z.
Proof.
  intros [_ _ _ _ _ _ _ _ Hn Hc Hs]. unfold total_columns.
  set (q := span_length p / column_spacing p).
  destruct (ceil_bounds q) as [Hlo Hhi].
  assert (Hq : 0 < q <= 100).
  { unfold q. split.
    - apply Rdiv_lt_0_compat; lra.
    - apply Rmult_le_reg_r with (column_spacing p); [ lra | ].
      unfold Rdiv. rewrite Rmult_assoc, Rinv_l by lra. nra. }
  assert (H1 : (1 <= ceil q)%Z).
  { assert (0 < IZR (ceil q)) by lra.
    apply lt_IZR in H. lia. }
  assert (H2 : (ceil q <= 100)%Z).
  { assert (IZR (ceil q) < 101) by lra.
    apply lt_IZR in H. lia. }
  nia.
Qed.

Lemma loads_nonneg_validated (p : params) :
  validated p ->
  0 <= calculate_wind_load p /\ 0 <= calculate_snow_load p /\
  0 < calculate_dead_load p.
Proof.
  intros [_ _ Ht _ Hl Hw Hk Hn Hr _ _].
  assert (Hn' : 0 < IZR (pv_per_row p)) by (apply IZR_pos; lia).
  assert (Hr' : 0 < IZR (num_rows p)) by (apply IZR_pos; lia).
  split; [ | split ].
  - rewrite calculate_wind_load_eq. apply Rabs_pos.
  - rewrite calculate_snow_load_eq.
    pose proof (snow_mu_r_nonneg (tilt_angle p)) as Hmu.
    pose proof (cos_radians_nonneg _ Ht) as Hc.
    pose proof (city_snow_nonneg (location p) (mk_city_load 0.40 0.35)) as Hs.
    cbn [snow] in Hs. specialize (Hs ltac:(lra)).
    repeat apply Rmult_le_pos; lra.
  - rewrite calculate_dead_load_eq.
    assert (Hm : 0 < pv_weight p * IZR (pv_per_row p) * IZR (num_rows p))
      by (repeat apply Rmult_lt_0_compat; lra).
    lra.
Qed.

(** X18: on a record within the ranges of [get_user_input] the selector
    never needs its zero guard nor meets a division by zero: the column
    count lies between 1 and 100000, the design load and the required area
    are positive, and the body of [select_column_section] either returns a
    section or raises [IndexError] at the first square tube. *)
Theorem validated_selection (p : params) :
  validated p ->
  let dl := design_load (r_combined (main_calculation p)) in
  (1 <= total_columns p <= 100000)%Z /\
  0 < dl /\
  (exists r, required_area_cm2 dl p = Ok r /\ 0 < r) /\
  ((exists s, select_column_section_body dl p = Ok s) \/
   select_column_section_body dl p = Raise IndexError).
Proof.
  intros Hv dl.
  pose proof (total_columns_range p Hv) as Ht.
  destruct (loads_nonneg_validated p Hv) as (Hw & Hs & Hd).
  assert (Hdl : 0 < dl).
  { subst dl. unfold main_calculation; cbv zeta. cbn [r_combined].
    rewrite design_load_eq.
    eapply Rlt_le_trans; [ | apply Rmax_l ].
    eapply Rlt_le_trans; [ | apply Rmax_l ]. lra. }
  destruct Hv as [_ _ _ _ _ _ _ _ Hn Hc Hsp].
  assert (Hreq : required_area_cm2 dl p =
                 Ok (dl / IZR (total_columns p) * 1000 / (235 / 1.5) / 100))
    by (apply required_area_cm2_domain; [ lra | lra | lia ]).
  assert (Hr : 0 < dl / IZR (total_columns p) * 1000 / (235 / 1.5) / 100).
  { assert (0 < dl / IZR (total_columns p)).
    { apply Rdiv_lt_0_compat; [ exact Hdl | apply IZR_pos; lia ]. }
    lra. }
  split; [ exact Ht | ].
  split; [ exact Hdl | ].
  split; [ eexists; split; [ exact Hreq | exact Hr ] | ].
  unfold select_column_section_body. rewrite Hreq. cbn [bind].
  rewrite scan_sections_outcome. unfold scan_outcome.
  repeat match goal with
         | |- context [Rge_dec ?a ?b] => destruct (Rge_dec a b)
         end;
    first [ left; eexists; reflexivity | right; reflexivity ].
Qed.

Lemma validated_selection_witness :
  (1 <= total_columns default_params <= 100000)%Z /\
  0 < design_load (r_combined (main_calculation default_params)).
Proof.
  destruct (validated_selection default_params validated_default)
    as (H1 & H2 & _).
  split; [ exact H1 | exact H2 ].
Defined.

(** ** The loop of [main] *)

Lemma shrinks_bind {A B : Type} (m : io A) (k : A -> io B) :
  shrinks m -> (forall a, shrinks (k a)) -> shrinks (io_bind m k).
Proof.
  intros Hm Hk inp. unfold io_bind.
  specialize (Hm inp). destruct (m inp) as [a mid | e mid | ]; try exact Hm.
  specialize (Hk a mid). destruct (k a mid); try exact I; lia.
Qed.

Lemma shrinks_ret {A : Type} (a : A) : shrinks (io_ret a).
Proof. intros inp. cbn. lia. Qed.

Lemma shrinks_get_valid_input {V : Type} (input_type : string -> result V)
    (lt : V -> V -> bool) (min_val max_val default : option V) (n : nat) :
  shrinks (get_valid_input input_type lt min_val max_val default n).
Proof.
  intros inp.
  destruct (get_valid_input input_type lt min_val max_val default n inp)
    as [v rest | e rest | ] eqn:H; [ | | exact I ].
  - destruct (attempts_loop_consumes input_type lt min_val max_val default
                n inp rest) as (used & -> & _).
    { left. exists v. exact H. }
    rewrite length_app. lia.
  - destruct (attempts_loop_consumes input_type lt min_val max_val default
                n inp rest) as (used & -> & _).
    { right. exists e. exact H. }
    rewrite length_app. lia.
Qed.

Lemma shrinks_read_location : shrinks read_location.
Proof. intros [ | a inp ]; cbn; [ exact I | lia ]. Qed.

Lemma shrinks_read_roof_type : shrinks read_roof_type.
Proof.
  intros inp. induction inp as [ | a inp IH ]; [ exact I | ].
  cbn [read_roof_type]. cbv zeta.
  destruct (contains WIND_SHAPE_COEFF (or_else a "平顶")); [ cbn; lia | ].
  destruct (read_roof_type inp); try exact I; cbn [List.length]; lia.
Qed.

Lemma shrinks_get_user_input (float : string -> result R)
    (int : string -> result Z) :
  shrinks (get_user_input float int).
Proof.
  unfold get_user_input.
  repeat first
    [ apply shrinks_bind; [ | intros ? ]
    | apply shrinks_read_location
    | apply shrinks_read_roof_type
    | apply shrinks_get_valid_input
    | apply shrinks_ret ].
Qed.

Lemma main_loop_fuel (float : string -> result R) (int : string -> result Z)
    (lower : string -> string) (fuel1 fuel2 : nat) (inp : list string) :
  (List.length inp < fuel1)%nat -> (List.length inp < fuel2)%nat ->
  main_loop float int lower fuel1 inp = main_loop float int lower fuel2 inp /\
  snd (main_loop float int lower fuel1 inp) <> Out_of_fuel.
Proof.
  revert fuel2 inp.
  induction fuel1 as [ | fuel1 IH ]; intros fuel2 inp H1 H2; [ lia | ].
  destruct fuel2 as [ | fuel2 ]; [ lia | ].
  cbn [main_loop].
  pose proof (shrinks_get_user_input float int inp) as Hs.
  destruct (get_user_input float int inp) as [p rest | e rest | ].
  - cbv zeta. destruct rest as [ | restart rest ];
      [ split; [ reflexivity | discriminate ] | ].
    destruct (declines lower restart);
      [ split; [ reflexivity | discriminate ] | ].
    cbn [List.length] in Hs.
    destruct (IH fuel2 rest ltac:(lia) ltac:(lia)) as [E N].
    rewrite <- E.
    destruct (main_loop float int lower fuel1 rest) as [more e].
    split; [ reflexivity | exact N ].
  - destruct rest as [ | restart rest ];
      [ split; [ reflexivity | discriminate ] | ].
    destruct (declines lower restart);
      [ split; [ reflexivity | discriminate ] | ].
    cbn [List.length] in Hs.
    apply IH; lia.
  - split; [ reflexivity | discriminate ].
Qed.



(** X20: one round of [main].  When [get_user_input] returns a record and
    the answer to the restart prompt is not y, [main] shows the calculation
    of that record and stops; when the answer is y, it shows it and goes on
    as [main] does on the remaining answers; when no answer is left, it
    shows it and ends with [EOFError]. *)
Theorem main_round (float : string -> result R) (int : string -> result Z)
    (lower : string -> string) (inp rest : list string) (p : params) :
  (get_user_input float int inp = Done p [] ->
   main float int lower inp = ([main_calculation p], Uncaught_EOFError)) /\
  (forall restart,
     get_user_input float int inp = Done p (restart :: rest) ->
     (lower restart <> "y"%string ->
      main float int lower inp = ([main_calculation p], Break)) /\
     (lower restart = "y"%string ->
      main float int lower inp =
      (main_calculation p :: fst (main float int lower rest),
       snd (main float int lower rest)))).
Proof.
  split.
  - intros Hg. unfold main. cbn [main_loop]. rewrite Hg. reflexivity.
  - intros restart Hg.
    pose proof (shrinks_get_user_input float int inp) as Hs.
    rewrite Hg in Hs. cbn [List.length] in Hs.
    unfold main.
    set (after := main_loop float int lower (S (List.length rest)) rest).
    cbn [main_loop]. rewrite Hg. cbv zeta. unfold declines.
    split; intros Hl.
    + destruct (String.eqb_spec (lower restart) "y"); [ contradiction | ].
      reflexivity.
    + rewrite Hl. cbn [String.eqb Ascii.eqb Bool.eqb negb].
      destruct (main_loop_fuel float int lower (List.length inp)
                  (S (List.length rest)) rest ltac:(lia) ltac:(lia)) as [E _].
      rewrite E. fold after. destruct after. reflexivity.
Qed.

Lemma main_round_witness :
  main float_of_digits int_of_digits (fun s => s)
    (repeat ""%string 11 ++ ["y"%string] ++ repeat ""%string 11 ++ ["n"%string])
  = ([main_calculation default_params; main_calculation default_params], Break).
Proof.
  destruct (main_round float_of_digits int_of_digits (fun s => s)
              (repeat ""%string 11 ++ ["y"%string] ++ repeat ""%string 11
               ++ ["n"%string])
              (repeat ""%string 11 ++ ["n"%string]) default_params)
    as [_ H1].
  destruct (H1 "y"%string eq_refl) as [_ Hyes].
  rewrite (Hyes eq_refl).
  destruct (main_round float_of_digits int_of_digits (fun s => s)
              (repeat ""%string 11 ++ ["n"%string]) [] default_params)
    as [_ H2].
  destruct (H2 "n"%string eq_refl) as [Hno _].
  rewrite (Hno ltac:(discriminate)).
  reflexivity.
Defined.

(** ** Loads against tilt and height *)

Lemma snow_mu_r_decreasing (t t' : R) :
  t <= t' -> snow_mu_r t' <= snow_mu_r t.
Proof. intros H. unfold snow_mu_r. bands. Qed.

Lemma wind_mu_z_increasing (h h' : R) :
  h <= h' -> wind_mu_z h <= wind_mu_z h'.
Proof. intros H. unfold wind_mu_z. bands. Qed.

Lemma sin_radians_le (t t' : R) :
  0 <= t -> t <= t' -> t' <= 90 ->
  0 <= sin (radians t) <= sin (radians t').
Proof.
  intros H0 Hle H90. pose proof PI_RGT_0 as Hpi. unfold radians. split.
  - apply sin_ge_0; nra.
  - apply sin_incr_1; nra.
Qed.

Lemma cos_radians_le (t t' : R) :
  0 <= t -> t <= t' -> t' <= 90 ->
  0 <= cos (radians t') <= cos (radians t).
Proof.
  intros H0 Hle H90. pose proof PI_RGT_0 as Hpi. split.
  - apply cos_radians_nonneg. lra.
  - unfold radians. apply cos_decr_1; nra.
Qed.

(** X21: with the other parameters fixed and in their domain, raising the
    tilt within 0..90 degrees never lowers the wind load, never raises the
    snow load, and leaves the dead load unchanged. *)
Theorem loads_against_tilt (p : params) (t t' : R) :
  0 <= t -> t <= t' -> t' <= 90 ->
  0 < pv_length p -> 0 < pv_width p ->
  (0 < pv_per_row p)%Z -> (0 < num_rows p)%Z ->
  calculate_wind_load (with_tilt_angle p t)
  <= calculate_wind_load (with_tilt_angle p t') /\
  calculate_snow_load (with_tilt_angle p t')
  <= calculate_snow_load (with_tilt_angle p t) /\
  calculate_dead_load (with_tilt_angle p t')
  = calculate_dead_load (with_tilt_angle p t).
Proof.
  intros H0 Hle H90 Hl Hw Hn Hr.
  apply IZR_pos in Hn. apply IZR_pos in Hr.
  destruct (sin_radians_le t t' H0 Hle H90) as [Hs Hss].
  destruct (cos_radians_le t t' H0 Hle H90) as [Hc Hcc].
  pose proof (snow_mu_r_decreasing t t' Hle) as Hmu.
  pose proof (snow_mu_r_nonneg t') as Hmu0.
  pose proof (city_wind_pos (location p) (mk_city_load 0.40 0.35)) as HW.
  cbn [wind] in HW. specialize (HW ltac:(lra)).
  pose proof (city_snow_nonneg (location p) (mk_city_load 0.40 0.35)) as HS.
  cbn [snow] in HS. specialize (HS ltac:(lra)).
  pose proof (shape_coeff_pos (roof_type p)) as Hmus.
  pose proof (wind_mu_z_pos (mounting_height p)) as Hmuz.
  rewrite !calculate_wind_load_eq, !calculate_snow_load_eq,
    !calculate_dead_load_eq.
  cbn [with_tilt_angle location roof_type tilt_angle mounting_height pv_length
       pv_width pv_weight pv_per_row num_rows].
  set (k := 1.0 * dict_get WIND_SHAPE_COEFF (roof_type p) 1.0
            * wind_mu_z (mounting_height p)
            * wind (dict_get CITY_LOAD_DATA (location p)
                      (mk_city_load 0.40 0.35))).
  assert (Hk : 0 < k) by (subst k; pos_product).
  clearbody k.
  split; [ | split; [ | reflexivity ] ].
  - rewrite !Rabs_right
      by (apply Rle_ge; repeat apply Rmult_le_pos; lra).
    repeat (apply Rmult_le_compat_r; [ lra | ]).
    apply Rmult_le_compat_l; [ lra | ].
    repeat (apply Rmult_le_compat_r; [ lra | ]).
    exact Hss.
  - repeat (apply Rmult_le_compat_r; [ lra | ]).
    apply Rmult_le_compat.
    + apply Rmult_le_pos; lra.
    + repeat apply Rmult_le_pos; lra.
    + apply Rmult_le_compat_r; lra.
    + apply Rmult_le_compat_l; [ | exact Hcc ].
      apply Rmult_le_pos; lra.
Qed.

Lemma loads_against_tilt_witness :
  calculate_wind_load (with_tilt_angle default_params 10)
  <= calculate_wind_load (with_tilt_angle default_params 40) /\
  calculate_snow_load (with_tilt_angle default_params 40)
  <= calculate_snow_load (with_tilt_angle default_params 10) /\
  calculate_dead_load (with_tilt_angle default_params 40)
  = calculate_dead_load (with_tilt_angle default_params 10).
Proof.
  apply (loads_against_tilt default_params 10 40); simpl; try lra; lia.
Defined.

(** X22: with the other parameters fixed, a greater mounting height never
    lowers the wind load, and the snow and dead loads do not depend on the
    height. *)
Theorem loads_against_height (p : params) (h h' : R) :
  h <= h' ->
  calculate_wind_load (with_mounting_height p h)
  <= calculate_wind_load (with_mounting_height p h') /\
  calculate_snow_load (with_mounting_height p h')
  = calculate_snow_load (with_mounting_height p h) /\
  calculate_dead_load (with_mounting_height p h')
  = calculate_dead_load (with_mounting_height p h).
Proof.
  intros Hle.
  pose proof (wind_mu_z_increasing h h' Hle) as Hmu.
  pose proof (wind_mu_z_pos h) as Hpos.
  rewrite !calculate_wind_load_eq.
  cbn [with_mounting_height location roof_type tilt_angle mounting_height
       pv_length pv_width pv_weight pv_per_row num_rows].
  split; [ | split; reflexivity ].
  set (a := 1.0 * dict_get WIND_SHAPE_COEFF (roof_type p) 1.0).
  set (w := wind (dict_get CITY_LOAD_DATA (location p)
                    (mk_city_load 0.40 0.35))).
  set (proj := sin (radians (tilt_angle p)) * pv_length p * pv_width p).
  rewrite !Rabs_mult.
  rewrite (Rabs_right (wind_mu_z h)), (Rabs_right (wind_mu_z h')) by lra.
  repeat (apply Rmult_le_compat_r; [ apply Rabs_pos | ]).
  apply Rmult_le_compat_l; [ apply Rabs_pos | exact Hmu ].
Qed.

Lemma loads_against_height_witness :
  calculate_wind_load (with_mounting_height default_params 3)
  <= calculate_wind_load (with_mounting_height default_params 12).
Proof.
  apply (loads_against_height default_params 3 12). lra.
Defined.
